(** * SpineExporter: a shallow embedding of [main.py]

    The script drives an external renderer (Spine) once per probe and
    searches, on an even percentage grid, for the largest scale whose
    export lands on a single page.  This file embeds [check_output_folder],
    [modify_export_json], [try_export] and [export_spine] as functions over
    an explicit world (temporary directories, the output directory, the
    console and the history of renderer invocations) in a state and
    exception monad, and proves the properties of the search, of the probe
    classification and of the workspace life cycle.

    Conventions of the embedding:
    - a scale is kept as its integer percentage: the float [1.0] of the
      source is [100] and [middle / 100] is [middle];
    - captured stdout is either the text it decodes to or marked as not
      valid UTF-8, in which case [result.stdout.decode()] raises;
    - export.json is either a well-formed document, of which the three
      rewritten fields are kept, or one of the malformed kinds on which
      [modify_export_json] raises;
    - wall-clock measurements ([time.time()]) are left out of the printed
      lines;
    - the thread pool of [run_export_in_threads] is outside the model: one
      job runs against one world. *)

From Stdlib Require Import ZArith List String Bool Lia Arith Permutation.
Import ListNotations.

Local Open Scope string_scope.
Local Open Scope list_scope.
Local Open Scope Z_scope.

(** ** Text helpers: Python's [str.endswith] and [in] on strings *)

Definition endswith (s suffix : string) : bool :=
  let n := String.length s in
  let k := String.length suffix in
  (k <=? n)%nat && String.eqb (substring (n - k) k s) suffix.

Fixpoint contains (needle hay : string) : bool :=
  prefix needle hay ||
  match hay with
  | EmptyString => false
  | String _ rest => contains needle rest
  end.

Definition misfit_signature : string := "Image does not fit within max page".

(** ** The world *)

(** The fields of export.json the script rewrites; every other field is
    passed through untouched and is not represented. *)
Record Config := mkConfig {
  project : string;
  output_dir : string;
  packAtlas_scale : list Z
}.

(** What a file named export.json may hold, as far as lines 17-23 of
    [modify_export_json] can tell. *)
Inductive ExportJson :=
| Document (c : Config)   (* a JSON object whose "packAtlas" is an object *)
| NotJson                 (* no JSON at all *)
| NoPackAtlas             (* a JSON object without the key "packAtlas" *)
| WrongShape.             (* other JSON: not an object, or "packAtlas" is not one *)

(** The argument vector handed to [subprocess.run]; [param_export] is the
    temporary directory holding the export.json the renderer reads. *)
Record Params := mkParams {
  param_exec : string;
  param_input : string;
  param_output : string;
  param_export : nat
}.

(** One invocation of the renderer, with the configuration it was given. *)
Record Run := mkRun {
  run_params : Params;
  run_config : option ExportJson
}.

Inductive Line :=
| Processing (basename : string) (tmp_dir : nat)
| ErrorWhileExporting (spine_file : string) (export_scale : Z) (stdout : string)
| Failed (spine_file : string) (output_path : string)
| ExportCompleted (spine_file : string) (export_scale : Z)
                  (width height : Z) (output_path : string).

Record World := mkWorld {
  tmp_fs : list (nat * option ExportJson);  (* temp directories and their export.json *)
  out_dir : option (list string);         (* listing of the output directory *)
  runs : list Run;                        (* renderer invocations, oldest first *)
  console : list Line                     (* printed lines, oldest first *)
}.

Definition set_tmp_fs (fs : list (nat * option ExportJson)) (w : World) : World :=
  mkWorld fs (out_dir w) (runs w) (console w).

Definition set_out_dir (d : option (list string)) (w : World) : World :=
  mkWorld (tmp_fs w) d (runs w) (console w).

Definition add_run (r : Run) (w : World) : World :=
  mkWorld (tmp_fs w) (out_dir w) (runs w ++ [r]) (console w).

Definition add_line (l : Line) (w : World) : World :=
  mkWorld (tmp_fs w) (out_dir w) (runs w) (console w ++ [l]).

Fixpoint fs_read (d : nat) (fs : list (nat * option ExportJson))
  : option ExportJson :=
  match fs with
  | [] => None
  | (d', c) :: rest => if Nat.eqb d d' then c else fs_read d rest
  end.

Fixpoint fs_write (d : nat) (c : ExportJson) (fs : list (nat * option ExportJson))
  : list (nat * option ExportJson) :=
  match fs with
  | [] => []
  | (d', c') :: rest =>
      if Nat.eqb d d' then (d', Some c) :: rest else (d', c') :: fs_write d c rest
  end.

Definition fs_exists (d : nat) (fs : list (nat * option ExportJson)) : bool :=
  existsb (fun e => Nat.eqb d (fst e)) fs.

Definition fs_remove (d : nat) (fs : list (nat * option ExportJson))
  : list (nat * option ExportJson) :=
  filter (fun e => negb (Nat.eqb d (fst e))) fs.

(** What the operating system answers to [subprocess.run]: either the
    process ran to its end, leaving [files] in the output directory, or it
    could not be started at all.  The captured stdout is a byte string:
    [Exited] is the case where these bytes are the UTF-8 encoding of the
    text [stdout], [ExitedGarbled] the case where they are not valid
    UTF-8. *)
Inductive Spawn :=
| Exited (returncode : Z) (stdout : string) (files : list string)
| ExitedGarbled (returncode : Z) (files : list string)
| SpawnFailed.

(** The collaborators the script relies on.  [spine] is the external
    renderer: its answer may depend on the whole world, in particular on
    the configuration file and on the history of earlier invocations, so
    that every sequence of probe outcomes is the behaviour of some host.
    [get_png_resolution] is [None] when [Image.open] raises on the file,
    and [makedirs] tells whether [os.makedirs] manages to create the
    directory. *)
Record Host := mkHost {
  spine : Params -> World -> Spawn;
  basename : string -> string;
  splitext_root : string -> string;
  relpath : string -> string -> string;
  get_png_resolution : World -> string -> option (Z * Z);
  makedirs : World -> string -> bool
}.

(** ** Exceptions and the monad *)

Inductive Exn :=
| OSError
| IndexError
| UnicodeDecodeError
| JSONDecodeError
| KeyError
| TypeError
| UnidentifiedImageError.

Inductive Res (A : Type) :=
| Ok (a : A) (w : World)
| Raised (e : Exn) (w : World)
| OutOfFuel.

Arguments Ok {A} a w.
Arguments Raised {A} e w.
Arguments OutOfFuel {A}.

Definition M (A : Type) := World -> Res A.

Definition ret {A} (a : A) : M A := fun w => Ok a w.

Definition raise {A} (e : Exn) : M A := fun w => Raised e w.

Definition bind {A B} (m : M A) (k : A -> M B) : M B :=
  fun w =>
    match m w with
    | Ok a w' => k a w'
    | Raised e w' => Raised e w'
    | OutOfFuel => OutOfFuel
    end.

Notation "x <- m ;; k" := (bind m (fun x => k))
  (at level 61, m at next level, right associativity).
Notation "m ;;; k" := (bind m (fun _ => k))
  (at level 61, right associativity).

Definition world_of {A} (r : Res A) : option World :=
  match r with
  | Ok _ w => Some w
  | Raised _ w => Some w
  | OutOfFuel => None
  end.

(** ** Primitive effects *)

Definition print (l : Line) : M unit := fun w => Ok tt (add_line l w).

(** [tempfile.mkdtemp()] creates a directory that did not exist before. *)
Definition fresh_dir (fs : list (nat * option ExportJson)) : nat :=
  S (fold_right Nat.max O (map fst fs)).

Definition mkdtemp : M nat :=
  fun w =>
    let d := fresh_dir (tmp_fs w) in
    Ok d (set_tmp_fs ((d, None) :: tmp_fs w) w).

Definition rmtree (d : nat) : M unit :=
  fun w =>
    if fs_exists d (tmp_fs w) then Ok tt (set_tmp_fs (fs_remove d (tmp_fs w)) w)
    else Raised OSError w.

(** [if not os.path.exists(p): os.makedirs(p)] *)
Definition ensure_output_dir (H : Host) (output_path : string) : M unit :=
  fun w =>
    match out_dir w with
    | Some _ => Ok tt w
    | None =>
        if makedirs H w output_path then Ok tt (set_out_dir (Some []) w)
        else Raised OSError w
    end.

Definition listdir : M (list string) :=
  fun w =>
    match out_dir w with
    | Some files => Ok files w
    | None => Raised OSError w
    end.

(** [shutil.copyfile(export_json, tmp_dir/export.json)]; [export_json] is
    the content of the source file, [None] when it cannot be read.  The
    copy is made whatever the file holds. *)
Definition copyfile (export_json : option ExportJson) (tmp_dir : nat) : M unit :=
  fun w =>
    match export_json with
    | Some c =>
        if fs_exists tmp_dir (tmp_fs w)
        then Ok tt (set_tmp_fs (fs_write tmp_dir c (tmp_fs w)) w)
        else Raised OSError w
    | None => Raised OSError w
    end.

(** ** [modify_export_json], [check_output_folder], [try_export] *)

(** The three rewritten fields are all a [Config] holds, so the file after
    the rewrite is determined by the arguments.  Opening a missing file
    raises, [json.load] raises on a file that is no JSON, and the
    assignments of lines 21-23 raise on JSON of the wrong shape; in all
    these cases the file is not written. *)
Definition modify_export_json (export_json_path : nat) (spine_file output : string)
    (export_scale : Z) : M unit :=
  fun w =>
    match fs_read export_json_path (tmp_fs w) with
    | Some (Document _) =>
        Ok tt (set_tmp_fs
                 (fs_write export_json_path
                    (Document (mkConfig spine_file output [export_scale]))
                    (tmp_fs w)) w)
    | Some NotJson => Raised JSONDecodeError w
    | Some NoPackAtlas => Raised KeyError w
    | Some WrongShape => Raised TypeError w
    | None => Raised OSError w
    end.

Definition png_files_of (files : list string) : list string :=
  filter (fun f => endswith f ".png") files.

Definition check_output_folder : M bool :=
  files <- listdir ;;
  ret (Nat.eqb (List.length (png_files_of files)) 1).

(** The world in which the renderer has just been invoked: the invocation
    is entered in the history together with the configuration it reads. *)
Definition invoked (spine_params : Params) (w : World) : World :=
  add_run (mkRun spine_params (fs_read (param_export spine_params) (tmp_fs w))) w.

(** [subprocess.run(spine_params, capture_output=True)]: the invocation is
    entered in the history, then the host decides what happened. *)
Definition subprocess_run (H : Host) (spine_params : Params)
  : M (Z * option string) :=
  fun w =>
    let w1 := invoked spine_params w in
    match spine H spine_params w with
    | Exited returncode stdout files =>
        Ok (returncode, Some stdout) (set_out_dir (Some files) w1)
    | ExitedGarbled returncode files =>
        Ok (returncode, None) (set_out_dir (Some files) w1)
    | SpawnFailed => Raised OSError w1
    end.

(** [result.stdout.decode()]: [None] stands for bytes that are not valid
    UTF-8. *)
Definition decode (stdout : option string) : M string :=
  match stdout with
  | Some text => ret text
  | None => raise UnicodeDecodeError
  end.

Definition try_export (H : Host) (export_json_path : nat) (export_scale : Z)
    (output_path spine_file : string) (spine_params : Params) : M bool :=
  modify_export_json export_json_path spine_file output_path export_scale ;;;
  result <- subprocess_run H spine_params ;;
  let '(returncode, stdout) := result in
  if negb (returncode =? 0) then
    output <- decode stdout ;;
    (if negb (contains misfit_signature output)
     then print (ErrorWhileExporting spine_file export_scale output)
     else ret tt) ;;;
    ret false
  else check_output_folder.

(** ** The scale search (lines 71-94 of [export_spine]) *)

(** [middle = (left + right) // 2], bumped by one when odd. *)
Definition next_middle (left right : Z) : Z :=
  let middle := (left + right) / 2 in
  if middle mod 2 =? 1 then middle + 1 else middle.

(** The candidate in the words of the specification: the midpoint rounded
    down to an even integer. *)
Definition spec_middle_rounded_down (low high : Z) : Z :=
  2 * (((low + high) / 2) / 2).

Definition loop_fuel (left right : Z) : nat := Z.to_nat (right - left + 1).

Section ScaleSearch.

(** The probe, as the search sees it: [try_export] with everything but
    the scale fixed. *)
Variable probe : Z -> M bool.

(** The [while left <= right] loop; the result is [ok_value]. *)
Fixpoint bisect (fuel : nat) (left right ok_value : Z) : M Z :=
  if left <=? right then
    match fuel with
    | O => fun _ => OutOfFuel
    | S fuel' =>
        let middle := next_middle left right in
        fits <- probe middle ;;
        if fits then bisect fuel' (middle + 2) right middle
        else bisect fuel' left (middle - 2) ok_value
    end
  else ret ok_value.

(** From the first [try_export] to the end of the [if]; the result is
    [(failed, export_scale)]. *)
Definition scale_search : M (bool * Z) :=
  fits <- probe 100 ;;
  if negb fits then
    ok_value <- bisect (loop_fuel 10 100) 10 100 100 ;;
    if negb (ok_value =? 100) then
      probe ok_value ;;;
      ret (false, ok_value)
    else ret (true, 100)
  else ret (false, 100).

End ScaleSearch.

(** ** [export_spine] *)

(** [os.path.join] on a directory and a file name. *)
Definition path_join (dir file : string) : string :=
  String.append dir (String.append "/" file).

(** Lines 111-118: the result line. *)
Definition report (H : Host) (failed : bool) (export_scale : Z)
    (spine_file output_path : string) : M unit :=
  if failed then print (Failed spine_file output_path)
  else
    files <- listdir ;;
    match png_files_of files with
    | [] => raise IndexError
    | png :: _ =>
        fun w =>
          match get_png_resolution H w (path_join output_path png) with
          | Some (width, height) =>
              print (ExportCompleted spine_file export_scale width height
                       output_path) w
          | None => Raised UnidentifiedImageError w
          end
    end.

(** Lines 54-69: the workspace, the output directory and the private copy
    of the configuration.  The result is [(tmp_dir, output_path)]. *)
Definition setup (H : Host) (export_json : option ExportJson) (spine_file : string)
    (output : option string) : M (nat * string) :=
  tmp_dir <- mkdtemp ;;
  print (Processing (basename H spine_file) tmp_dir) ;;;
  let output_path :=
    match output with
    | Some o => o
    | None => String.append (splitext_root H spine_file) "_export"
    end in
  ensure_output_dir H output_path ;;;
  copyfile export_json tmp_dir ;;;
  ret (tmp_dir, output_path).

Definition export_spine (H : Host) (spine_exec : string)
    (export_json : option ExportJson)
    (spine_file : string) (output : option string) (base_path : option string)
    : M unit :=
  dirs <- setup H export_json spine_file output ;;
  let '(tmp_dir, output_path) := dirs in
  let spine_params := mkParams spine_exec spine_file output_path tmp_dir in
  r <- scale_search
         (fun s => try_export H tmp_dir s output_path spine_file spine_params) ;;
  let '(failed, export_scale) := r in
  let spine_file :=
    match base_path with
    | Some b => relpath H spine_file b
    | None => spine_file
    end in
  report H failed export_scale spine_file output_path ;;;
  rmtree tmp_dir.

(** ** Observations on a world *)

(** The scale a renderer invocation was given, read from its
    configuration. *)
Definition run_scale (r : Run) : option Z :=
  match run_config r with
  | Some (Document c) =>
      match packAtlas_scale c with
      | [s] => Some s
      | _ => None
      end
  | _ => None
  end.

Definition probes_of (w : World) : list (option Z) := map run_scale (runs w).

Definition tmp_dirs (w : World) : list nat := map fst (tmp_fs w).

Definition listing_of (w : World) : list string :=
  match out_dir w with
  | Some files => files
  | None => []
  end.

Definition on_grid (left right s : Z) : Prop :=
  Z.even s = true /\ left <= s <= right.

(** ** Renderers used in the examples *)

Definition config_scale (p : Params) (w : World) : list Z :=
  match fs_read (param_export p) (tmp_fs w) with
  | Some (Document c) => packAtlas_scale c
  | _ => []
  end.

Definition fit : Spawn := Exited 0 EmptyString ["skeleton.atlas"; "skeleton.png"].

Definition misfit : Spawn := Exited 1 misfit_signature [].

(** A renderer whose export fits exactly at the scales up to [t]. *)
Definition threshold_spine (t : Z) : Params -> World -> Spawn :=
  fun p w =>
    match config_scale p w with
    | [s] => if s <=? t then fit else misfit
    | _ => Exited 2 "unreadable configuration" (listing_of w)
    end.

(** A renderer that answers its n-th invocation with the n-th entry of
    [script], and cannot be started once the script is used up. *)
Definition scripted_spine (script : list Spawn) : Params -> World -> Spawn :=
  fun _ w => nth (List.length (runs w)) script SpawnFailed.

(** A host on which images can be read and directories created. *)
Definition host_of (sp : Params -> World -> Spawn) : Host :=
  mkHost sp (fun s => s) (fun s => s) (fun s _ => s)
    (fun _ _ => Some (512, 256)) (fun _ _ => true).

(** The same host, except that no file can be opened as an image. *)
Definition host_without_images (sp : Params -> World -> Spawn) : Host :=
  mkHost sp (fun s => s) (fun s => s) (fun s _ => s)
    (fun _ _ => None) (fun _ _ => true).

(** The same host, except that no directory can be created. *)
Definition host_without_makedirs (sp : Params -> World -> Spawn) : Host :=
  mkHost sp (fun s => s) (fun s => s) (fun s _ => s)
    (fun _ _ => Some (512, 256)) (fun _ _ => false).

(** The world holds a well-formed export.json in directory [t]. *)
Definition has_document (t : nat) (w : World) : Prop :=
  exists c, fs_read t (tmp_fs w) = Some (Document c).

Definition empty_world : World := mkWorld [] None [] [].

Definition template : ExportJson :=
  Document (mkConfig "template.spine" "out" [1]).

Definition run_job (sp : Params -> World -> Spawn) : Res unit :=
  export_spine (host_of sp) "Spine" (Some template) "hero.spine" (Some "out") None
    empty_world.

(** The world [setup] leaves behind in [run_job], and the argument vector
    of its probes. *)
Definition ready_world : World :=
  mkWorld [(1%nat, Some template)] (Some []) [] [Processing "hero.spine" 1].

Definition job_params : Params := mkParams "Spine" "hero.spine" "out" 1.

Definition job_probe (sp : Params -> World -> Spawn) : Z -> M bool :=
  fun s => try_export (host_of sp) 1 s "out" "hero.spine" job_params.

(** The renderer fails at full scale, then fits at every candidate of the
    loop, the last of which is full scale again. *)
Definition late_fit_script : list Spawn := [misfit; fit; fit; fit; fit; fit].

(** The renderer behaves as if the export fitted up to 42, and cannot be
    started for the re-confirmation. *)
Definition crash_on_confirm_script : list Spawn :=
  [misfit; misfit; fit; misfit; fit; fit].

(** As above, but the re-confirmation run leaves no image behind. *)
Definition empty_confirm_script : list Spawn :=
  [misfit; misfit; fit; misfit; fit; fit; Exited 0 EmptyString ["skeleton.atlas"]].

(** ** How a computation may extend the history *)

(** [extends w w' ss]: from [w] to [w'] the renderer was invoked exactly at
    the scales [ss], in that order, and no temporary directory appeared or
    disappeared. *)
Definition extends (w w' : World) (ss : list Z) : Prop :=
  probes_of w' = probes_of w ++ map Some ss /\ tmp_dirs w' = tmp_dirs w.

(** What the search needs to know of a probe: a call at [s] invokes the
    renderer once, at [s]; when it raises, it does so before or at the
    invocation. *)
Definition logs_probe (probe : Z -> M bool) : Prop :=
  forall s w,
    match probe s w with
    | Ok _ w' => extends w w' [s]
    | Raised _ w' => extends w w' [] \/ extends w w' [s]
    | OutOfFuel => False
    end.

(** ** Further observations, for the properties beyond the claims *)

(** [others_kept t w w']: from [w] to [w'] no temporary directory other
    than [t] was created, removed or rewritten. *)
Definition others_kept (t : nat) (w w' : World) : Prop :=
  forall d, d <> t ->
            fs_read d (tmp_fs w') = fs_read d (tmp_fs w) /\
            fs_exists d (tmp_fs w') = fs_exists d (tmp_fs w).

Definition is_error_line (l : Line) : Prop :=
  match l with
  | ErrorWhileExporting _ _ _ => True
  | _ => False
  end.

Definition is_result_line (l : Line) : Prop :=
  match l with
  | Failed _ _ => True
  | ExportCompleted _ _ _ _ _ => True
  | _ => False
  end.

(** [printed_errors w w']: from [w] to [w'] the console only grew, and only
    by error lines of the probe. *)
Definition printed_errors (w w' : World) : Prop :=
  exists ls, console w' = console w ++ ls /\ Forall is_error_line ls.

(** What the search answers against a renderer that fits exactly up to
    [t]: full scale when that fits, failure when nothing on the grid fits,
    and otherwise the largest even percentage not above [t]. *)
Definition threshold_result (t : Z) : bool * Z :=
  if 100 <=? t then (false, 100)
  else if t <? 10 then (true, 100)
  else (false, 2 * (t / 2)).

Definition has_png_name (f : string) : Prop :=
  exists stem, f = String.append stem ".png".

(** Exactly one entry of a listing is named like a PNG image. *)
Definition exactly_one_png (files : list string) : Prop :=
  exists before f after,
    files = before ++ f :: after /\ has_png_name f /\
    Forall (fun g => ~ has_png_name g) before /\
    Forall (fun g => ~ has_png_name g) after.

(** A world in which another job has its workspace, directory 7, with its
    own copy of the configuration. *)
Definition busy_world : World :=
  mkWorld [(7%nat, Some (Document (mkConfig "other.spine" "other_out" [80])))]
    (Some ["stale.txt"]) [] [].

(** * Properties *)

(** ** Arithmetic of the candidate *)

Lemma even_step (m : Z) :
  Z.even m = true -> Z.even (m + 2) = true /\ Z.even (m - 2) = true.
Proof.
  intros Hm. rewrite Z.even_add, Z.even_sub, Hm. split; reflexivity.
Qed.

Lemma next_middle_even (left right : Z) : Z.even (next_middle left right) = true.
Proof.
  unfold next_middle.
  set (m := (left + right) / 2).
  destruct (m mod 2 =? 1) eqn:E.
  - apply Z.eqb_eq in E.
    rewrite Z.even_add, Zeven_mod, E. reflexivity.
  - apply Z.eqb_neq in E.
    rewrite Zeven_mod.
    pose proof (Z.mod_pos_bound m 2 ltac:(lia)) as B.
    replace (m mod 2) with 0 by lia. reflexivity.
Qed.

Lemma next_middle_near (left right : Z) :
  (left + right) / 2 <= next_middle left right <= (left + right) / 2 + 1.
Proof.
  unfold next_middle. destruct (_ =? 1); lia.
Qed.

Lemma even_double (n : Z) : Z.even n = true -> exists k, n = 2 * k.
Proof.
  intros Hn. apply Z.even_spec in Hn. destruct Hn as [k Hk]. now exists k.
Qed.

Lemma next_middle_grid (left right : Z) :
  Z.even left = true -> Z.even right = true -> left <= right ->
  on_grid left right (next_middle left right).
Proof.
  intros Hl Hr Hle. split; [apply next_middle_even|].
  destruct (even_double _ Hl) as [a ->], (even_double _ Hr) as [b ->].
  unfold next_middle.
  replace (2 * a + 2 * b) with ((a + b) * 2) by lia.
  rewrite Z.div_mul by lia.
  destruct ((a + b) mod 2 =? 1) eqn:E; [|lia].
  apply Z.eqb_eq in E.
  pose proof (Z.div_mod (a + b) 2 ltac:(lia)). lia.
Qed.

Lemma on_grid_widen (l r l' r' s : Z) :
  l <= l' -> r' <= r -> on_grid l' r' s -> on_grid l r s.
Proof. unfold on_grid. intuition lia. Qed.

(** ** The temporary file system *)

Lemma fs_read_write (d : nat) (c : ExportJson) (fs : list (nat * option ExportJson)) :
  fs_read d fs <> None -> fs_read d (fs_write d c fs) = Some c.
Proof.
  induction fs as [|[d' c'] fs IH]; simpl; [congruence|].
  destruct (Nat.eqb d d') eqn:E; simpl; rewrite E; auto.
Qed.

Lemma fs_write_dirs (d : nat) (c : ExportJson) (fs : list (nat * option ExportJson)) :
  map fst (fs_write d c fs) = map fst fs.
Proof.
  induction fs as [|[d' c'] fs IH]; simpl; [reflexivity|].
  destruct (Nat.eqb d d'); simpl; congruence.
Qed.

Lemma fs_exists_dirs (d : nat) (fs : list (nat * option ExportJson)) :
  fs_exists d fs = existsb (Nat.eqb d) (map fst fs).
Proof.
  unfold fs_exists. induction fs as [|e fs IH]; simpl; congruence.
Qed.

Lemma fs_exists_remove (d : nat) (fs : list (nat * option ExportJson)) :
  fs_exists d (fs_remove d fs) = false.
Proof.
  unfold fs_exists, fs_remove.
  induction fs as [|e fs IH]; simpl; [reflexivity|].
  destruct (Nat.eqb d (fst e)) eqn:E; simpl; [assumption|].
  rewrite E. assumption.
Qed.

Lemma fs_exists_write (d d' : nat) (c : ExportJson) (fs : list (nat * option ExportJson)) :
  fs_exists d (fs_write d' c fs) = fs_exists d fs.
Proof. now rewrite !fs_exists_dirs, fs_write_dirs. Qed.

(** ** Traces *)

Lemma extends_refl (w : World) : extends w w [].
Proof. split; [simpl; now rewrite app_nil_r | reflexivity]. Qed.

Lemma extends_trans (w1 w2 w3 : World) (ss ss' : list Z) :
  extends w1 w2 ss -> extends w2 w3 ss' -> extends w1 w3 (ss ++ ss').
Proof.
  intros [P1 D1] [P2 D2]. split; [|congruence].
  now rewrite P2, P1, map_app, app_assoc.
Qed.

Lemma extends_same (w1 w2 : World) :
  runs w2 = runs w1 -> tmp_dirs w2 = tmp_dirs w1 -> extends w1 w2 [].
Proof.
  intros R D. split; [|assumption].
  unfold probes_of. rewrite R. simpl. now rewrite app_nil_r.
Qed.

(** ** The probe *)

Lemma modify_export_json_ok (t : nat) (f o : string) (s : Z) (w w1 : World) :
  modify_export_json t f o s w = Ok tt w1 ->
  fs_read t (tmp_fs w) <> None /\
  w1 = set_tmp_fs (fs_write t (Document (mkConfig f o [s])) (tmp_fs w)) w.
Proof.
  unfold modify_export_json.
  destruct (fs_read t (tmp_fs w)) as [[c| | |]|]; try discriminate.
  intros [= <-]. split; [discriminate | reflexivity].
Qed.

Lemma modify_export_json_cases (t : nat) (f o : string) (s : Z) (w : World) :
  (exists e, modify_export_json t f o s w = Raised e w) \/
  exists w1, modify_export_json t f o s w = Ok tt w1.
Proof.
  unfold modify_export_json.
  destruct (fs_read t (tmp_fs w)) as [[c| | |]|]; eauto.
Qed.

(** [try_export] once the configuration has been rewritten: one equation
    per answer of the operating system. *)
Lemma try_export_run (H : Host) (t : nat) (s : Z) (out f : string) (prm : Params)
    (w w1 : World) :
  modify_export_json t f out s w = Ok tt w1 ->
  try_export H t s out f prm w =
    match spine H prm w1 with
    | Exited rc stdout files =>
        let w2 := set_out_dir (Some files) (invoked prm w1) in
        if rc =? 0 then Ok (Nat.eqb (List.length (png_files_of files)) 1) w2
        else if contains misfit_signature stdout then Ok false w2
        else Ok false (add_line (ErrorWhileExporting f s stdout) w2)
    | ExitedGarbled rc files =>
        let w2 := set_out_dir (Some files) (invoked prm w1) in
        if rc =? 0 then Ok (Nat.eqb (List.length (png_files_of files)) 1) w2
        else Raised UnicodeDecodeError w2
    | SpawnFailed => Raised OSError (invoked prm w1)
    end.
Proof.
  intros Hm. unfold try_export, bind. rewrite Hm.
  unfold subprocess_run.
  destruct (spine H prm w1) as [rc stdout files|rc files|]; [| |reflexivity].
  - destruct (rc =? 0); simpl; [reflexivity|].
    destruct (contains misfit_signature stdout); reflexivity.
  - destruct (rc =? 0); reflexivity.
Qed.

Lemma invoked_extends (t : nat) (s : Z) (out f : string) (prm : Params)
    (w w1 : World) :
  param_export prm = t ->
  modify_export_json t f out s w = Ok tt w1 ->
  extends w (invoked prm w1) [s].
Proof.
  intros Hp Hm. apply modify_export_json_ok in Hm. destruct Hm as [Hr ->].
  split.
  - unfold probes_of, invoked. simpl. rewrite map_app. simpl.
    unfold run_scale. simpl. rewrite Hp, fs_read_write by assumption.
    reflexivity.
  - unfold tmp_dirs, invoked. simpl. apply fs_write_dirs.
Qed.

Lemma try_export_logs (H : Host) (t : nat) (out f : string) (prm : Params) :
  param_export prm = t ->
  logs_probe (fun s => try_export H t s out f prm).
Proof.
  intros Hp s w.
  destruct (modify_export_json_cases t f out s w) as [[e E]|[w1 E]].
  - unfold try_export, bind. rewrite E. left. apply extends_refl.
  - rewrite (try_export_run H _ _ _ _ _ _ _ E).
    pose proof (invoked_extends _ _ _ _ _ _ _ Hp E) as X.
    destruct (spine H prm w1) as [rc stdout files|rc files|]; [| |now right];
      cbv zeta.
    + destruct (rc =? 0); [exact X|].
      destruct (contains misfit_signature stdout); exact X.
    + destruct (rc =? 0); [exact X | right; exact X].
Qed.

(** ** The bisection loop *)

Section LoopFacts.

Variable probe : Z -> M bool.

Lemma bisect_done (fuel : nat) (left right ok_value : Z) (w : World) :
  right < left -> bisect probe fuel left right ok_value w = Ok ok_value w.
Proof.
  intros Hlt. apply Z.leb_gt in Hlt.
  destruct fuel; simpl; rewrite Hlt; reflexivity.
Qed.

Lemma bisect_step (fuel : nat) (left right ok_value : Z) (w : World) :
  left <= right ->
  bisect probe (S fuel) left right ok_value w =
    (fits <- probe (next_middle left right) ;;
     if fits
     then bisect probe fuel (next_middle left right + 2) right
            (next_middle left right)
     else bisect probe fuel left (next_middle left right - 2) ok_value) w.
Proof.
  intros Hle. apply Z.leb_le in Hle. simpl. rewrite Hle. reflexivity.
Qed.

Lemma loop_fuel_up (fuel : nat) (left right m : Z) :
  left <= m -> (loop_fuel left right <= S fuel)%nat ->
  (loop_fuel (m + 2) right <= fuel)%nat.
Proof. unfold loop_fuel. lia. Qed.

Lemma loop_fuel_down (fuel : nat) (left right m : Z) :
  left <= right -> m <= right -> (loop_fuel left right <= S fuel)%nat ->
  (loop_fuel left (m - 2) <= fuel)%nat.
Proof. unfold loop_fuel. lia. Qed.

Hypothesis probe_logs : logs_probe probe.

(** With the fuel [export_spine] gives it the loop always comes to an
    end; every candidate it probes is an even value between the bounds
    it started from, and its result is either the [ok_value] it started
    from or one of the candidates it probed. *)
Lemma bisect_trace (fuel : nat) :
  forall (left right ok_value : Z) (w : World),
    Z.even left = true -> Z.even right = true ->
    (loop_fuel left right <= fuel)%nat ->
    match bisect probe fuel left right ok_value w with
    | Ok ok' w' =>
        exists ss, extends w w' ss /\ Forall (on_grid left right) ss /\
                   (ok' = ok_value \/ In ok' ss)
    | Raised _ w' =>
        exists ss, extends w w' ss /\ Forall (on_grid left right) ss
    | OutOfFuel => False
    end.
Proof.
  induction fuel as [|fuel IH]; intros left right ok_value w Hl Hr Hf.
  - assert (right < left) as Hlt by (unfold loop_fuel in Hf; lia).
    rewrite bisect_done by assumption.
    exists []. split; [apply extends_refl|]. split; [constructor | now left].
  - destruct (Z_lt_le_dec right left) as [Hlt|Hle].
    + rewrite bisect_done by assumption.
      exists []. split; [apply extends_refl|]. split; [constructor | now left].
    + rewrite bisect_step by assumption. unfold bind.
      pose proof (next_middle_grid left right Hl Hr Hle) as Hg.
      set (m := next_middle left right) in *.
      destruct Hg as [Hm Hb].
      destruct (even_step m Hm) as [Hup Hdown].
      pose proof (probe_logs m w) as Hp.
      destruct (probe m w) as [fits w1|e w1|]; [| |contradiction].
      * destruct fits.
        -- specialize (IH (m + 2) right m w1 Hup Hr
                         (loop_fuel_up _ _ _ _ (proj1 Hb) Hf)).
           destruct (bisect probe fuel (m + 2) right m w1) as [ok' w2|e w2|];
             [| |contradiction].
           ++ destruct IH as (ss & He & Hg & Hok).
              exists ([m] ++ ss). split; [eapply extends_trans; eauto|].
              split.
              ** constructor; [split; assumption|].
                 eapply Forall_impl; [|exact Hg].
                 intros s. apply on_grid_widen; lia.
              ** right. destruct Hok as [->|Hin]; [now left | now right].
           ++ destruct IH as (ss & He & Hg).
              exists ([m] ++ ss). split; [eapply extends_trans; eauto|].
              constructor; [split; assumption|].
              eapply Forall_impl; [|exact Hg].
              intros s. apply on_grid_widen; lia.
        -- specialize (IH left (m - 2) ok_value w1 Hl Hdown
                         (loop_fuel_down _ _ _ _ Hle (proj2 Hb) Hf)).
           destruct (bisect probe fuel left (m - 2) ok_value w1)
             as [ok' w2|e w2|]; [| |contradiction].
           ++ destruct IH as (ss & He & Hg & Hok).
              exists ([m] ++ ss). split; [eapply extends_trans; eauto|].
              split.
              ** constructor; [split; assumption|].
                 eapply Forall_impl; [|exact Hg].
                 intros s. apply on_grid_widen; lia.
              ** destruct Hok as [->|Hin]; [now left | right; now right].
           ++ destruct IH as (ss & He & Hg).
              exists ([m] ++ ss). split; [eapply extends_trans; eauto|].
              constructor; [split; assumption|].
              eapply Forall_impl; [|exact Hg].
              intros s. apply on_grid_widen; lia.
      * destruct Hp as [Hp|Hp].
        -- exists []. split; [assumption | constructor].
        -- exists [m]. split; [assumption|].
           constructor; [split; assumption | constructor].
Qed.

End LoopFacts.

(** ** The search as a whole *)

Lemma on_grid_100 : on_grid 10 100 100.
Proof. split; [reflexivity | lia]. Qed.

Lemma scale_search_trace (probe : Z -> M bool) (w : World) :
  logs_probe probe ->
  match scale_search probe w with
  | Ok (_, export_scale) w' =>
      exists ss, extends w w' ss /\ Forall (on_grid 10 100) ss /\
                 on_grid 10 100 export_scale
  | Raised _ w' => exists ss, extends w w' ss /\ Forall (on_grid 10 100) ss
  | OutOfFuel => False
  end.
Proof.
  intros Hlog. unfold scale_search, bind.
  pose proof (Hlog 100 w) as H1.
  destruct (probe 100 w) as [fits w1|e w1|]; [| |contradiction].
  - destruct fits; cbn [negb]; cbv beta iota.
    + exists [100]. split; [assumption|].
      split; [repeat constructor; apply on_grid_100 | apply on_grid_100].
    + pose proof (bisect_trace probe Hlog (loop_fuel 10 100) 10 100 100 w1
                    eq_refl eq_refl (le_n _)) as HB.
      destruct (bisect probe (loop_fuel 10 100) 10 100 100 w1)
        as [ok w2|e w2|]; [| |contradiction].
      * destruct HB as (ss & He & Hg & Hok).
        pose proof (extends_trans _ _ _ _ _ H1 He) as H12.
        assert (Forall (on_grid 10 100) ([100] ++ ss)) as Hall
          by (constructor; [apply on_grid_100 | assumption]).
        destruct (ok =? 100) eqn:E; cbn [negb]; cbv beta iota.
        -- exists ([100] ++ ss). split; [assumption|].
           split; [assumption | apply on_grid_100].
        -- apply Z.eqb_neq in E.
           assert (on_grid 10 100 ok) as Hgok.
           { destruct Hok as [->|Hin]; [congruence|].
             rewrite Forall_forall in Hg. now apply Hg. }
           pose proof (Hlog ok w2) as H3.
           destruct (probe ok w2) as [b w3|e w3|]; [| |contradiction].
           ++ exists (([100] ++ ss) ++ [ok]).
              split; [eapply extends_trans; eauto|].
              split; [|assumption].
              apply Forall_app. split; [assumption | now constructor].
           ++ destruct H3 as [H3|H3].
              ** exists (([100] ++ ss) ++ []).
                 split; [eapply extends_trans; eauto|].
                 now rewrite app_nil_r.
              ** exists (([100] ++ ss) ++ [ok]).
                 split; [eapply extends_trans; eauto|].
                 apply Forall_app. split; [assumption | now constructor].
      * destruct HB as (ss & He & Hg).
        exists ([100] ++ ss). split; [eapply extends_trans; eauto|].
        constructor; [apply on_grid_100 | assumption].
  - destruct H1 as [H1|H1].
    + exists []. split; [assumption | constructor].
    + exists [100]. split; [assumption|].
      repeat constructor; apply on_grid_100.
Qed.

(** ** Setup, report and clean-up *)

Lemma fs_exists_same_dirs (d : nat) (w w' : World) :
  tmp_dirs w' = tmp_dirs w -> fs_exists d (tmp_fs w') = fs_exists d (tmp_fs w).
Proof. unfold tmp_dirs. intros E. now rewrite !fs_exists_dirs, E. Qed.

Lemma setup_spec (H : Host) (export_json : option ExportJson) (spine_file : string)
    (output : option string) (w : World) :
  match setup H export_json spine_file output w with
  | Ok (tmp_dir, _) w1 =>
      tmp_dir = fresh_dir (tmp_fs w) /\ runs w1 = runs w /\
      fs_exists tmp_dir (tmp_fs w1) = true /\
      console w1 = console w ++ [Processing (basename H spine_file) tmp_dir]
  | Raised _ w1 =>
      runs w1 = runs w /\ fs_exists (fresh_dir (tmp_fs w)) (tmp_fs w1) = true
  | OutOfFuel => False
  end.
Proof.
  unfold setup, bind, mkdtemp, print, ensure_output_dir, copyfile, ret.
  set (d := fresh_dir (tmp_fs w)). clearbody d.
  destruct (out_dir w) eqn:Eo, export_json; simpl; rewrite ?Eo; simpl;
    try match goal with
        | |- context [makedirs ?h ?a ?b] => destruct (makedirs h a b)
        end;
    simpl; rewrite ?Nat.eqb_refl; simpl; rewrite ?Nat.eqb_refl; simpl;
    rewrite ?Nat.eqb_refl; auto.
Qed.

Lemma report_spec (H : Host) (failed : bool) (export_scale : Z)
    (spine_file output_path : string) (w : World) :
  match report H failed export_scale spine_file output_path w with
  | Ok _ w' => runs w' = runs w /\ tmp_fs w' = tmp_fs w
  | Raised _ w' => w' = w
  | OutOfFuel => False
  end.
Proof.
  unfold report, bind, listdir, print, raise.
  destruct failed; [split; reflexivity|].
  destruct (out_dir w) as [files|]; [|reflexivity].
  destruct (png_files_of files) as [|png rest]; [reflexivity|].
  destruct (get_png_resolution H w (path_join output_path png)) as [[? ?]|];
    [split; reflexivity | reflexivity].
Qed.

(** ** [export_spine] as a whole *)

Lemma probes_same (w w' : World) :
  runs w' = runs w -> probes_of w' = probes_of w ++ map Some [].
Proof. unfold probes_of. intros ->. simpl. now rewrite app_nil_r. Qed.

(** Every run of [export_spine] ends; the renderer was invoked on the grid
    only; the workspace is gone exactly when the function returned. *)
Lemma export_spine_outcome (H : Host) (spine_exec : string)
    (export_json : option ExportJson) (spine_file : string)
    (output base_path : option string) (w : World) :
  match export_spine H spine_exec export_json spine_file output base_path w with
  | Ok _ w' =>
      (exists ss, probes_of w' = probes_of w ++ map Some ss /\
                  Forall (on_grid 10 100) ss) /\
      fs_exists (fresh_dir (tmp_fs w)) (tmp_fs w') = false
  | Raised _ w' =>
      (exists ss, probes_of w' = probes_of w ++ map Some ss /\
                  Forall (on_grid 10 100) ss) /\
      fs_exists (fresh_dir (tmp_fs w)) (tmp_fs w') = true
  | OutOfFuel => False
  end.
Proof.
  unfold export_spine, bind.
  pose proof (setup_spec H export_json spine_file output w) as HS.
  destruct (setup H export_json spine_file output w) as [[t o] w1|e w1|];
    [| |contradiction].
  - destruct HS as (Ht & HR & HE & _). rewrite <- Ht.
    set (probe := fun s => try_export H t s o spine_file
                            (mkParams spine_exec spine_file o t)).
    pose proof (scale_search_trace probe w1
                  (try_export_logs H t o spine_file
                     (mkParams spine_exec spine_file o t) eq_refl)) as HT.
    destruct (scale_search probe w1) as [[failed scale] w2|e w2|];
      [| |contradiction].
    + destruct HT as (ss & [HP HD] & Hg & _).
      assert (probes_of w2 = probes_of w ++ map Some ss) as HP'
        by (rewrite HP; unfold probes_of; now rewrite HR).
      set (shown := match base_path with
                    | Some b => relpath H spine_file b
                    | None => spine_file
                    end).
      pose proof (report_spec H failed scale shown o w2) as HRp.
      destruct (report H failed scale shown o w2) as [u w3|e w3|];
        [| |contradiction].
      * destruct HRp as [R3 T3]. unfold rmtree. rewrite T3.
        rewrite (fs_exists_same_dirs t _ _ HD), HE.
        split; [|apply fs_exists_remove].
        exists ss. split; [|assumption].
        unfold probes_of in *. simpl. now rewrite R3.
      * subst w3. split; [now exists ss|].
        now rewrite (fs_exists_same_dirs t _ _ HD).
    + destruct HT as (ss & [HP HD] & Hg).
      split; [|now rewrite (fs_exists_same_dirs t _ _ HD)].
      exists ss. split; [|assumption].
      rewrite HP. unfold probes_of. now rewrite HR.
  - destruct HS as [HR HE]. split; [|assumption].
    exists []. split; [now apply probes_same | constructor].
Qed.

Lemma fresh_dir_bound (fs : list (nat * option ExportJson)) (d : nat) :
  In d (map fst fs) -> (d < fresh_dir fs)%nat.
Proof.
  unfold fresh_dir. induction fs as [|e fs IH]; simpl; [contradiction|].
  intros [->|Hin]; [lia|]. specialize (IH Hin). lia.
Qed.

Lemma fresh_dir_new (fs : list (nat * option ExportJson)) :
  fs_exists (fresh_dir fs) fs = false.
Proof.
  rewrite fs_exists_dirs.
  destruct (existsb _ _) eqn:E; [|reflexivity].
  apply existsb_exists in E. destruct E as (d & Hin & Hd).
  apply Nat.eqb_eq in Hd. apply fresh_dir_bound in Hin. lia.
Qed.

(** * The claims *)

(** C5: Quantization invariant: whatever the renderer answers, every
    invocation [export_spine] adds to the history (the full-scale probe,
    the probes of the loop and the re-confirmation) is made at an even
    percentage between 10 and 100; and the run always comes to an end. *)
Theorem probes_even_within_domain (H : Host) (spine_exec : string)
    (export_json : option ExportJson) (spine_file : string)
    (output base_path : option string) (w : World) :
  match world_of
          (export_spine H spine_exec export_json spine_file output base_path w)
  with
  | Some w' =>
      exists ss, probes_of w' = probes_of w ++ map Some ss /\
                 Forall (fun s => Z.even s = true /\ 10 <= s <= 100) ss
  | None => False
  end.
Proof.
  pose proof (export_spine_outcome H spine_exec export_json spine_file
                output base_path w) as HO.
  destruct (export_spine _ _ _ _ _ _ w) as [u w'|e w'|]; simpl;
    [| |contradiction]; destruct HO as [HO _]; exact HO.
Qed.

(** C8, as the code has it: the workspace [mkdtemp] creates is new, it is
    gone when [export_spine] returns (with a result line or a failure
    line), and it is still there whenever [export_spine] ends by an
    exception. *)
Theorem workspace_removed_iff_returned (H : Host) (spine_exec : string)
    (export_json : option ExportJson) (spine_file : string)
    (output base_path : option string) (w : World) :
  let tmp_dir := fresh_dir (tmp_fs w) in
  fs_exists tmp_dir (tmp_fs w) = false /\
  match export_spine H spine_exec export_json spine_file output base_path w with
  | Ok _ w' => fs_exists tmp_dir (tmp_fs w') = false
  | Raised _ w' => fs_exists tmp_dir (tmp_fs w') = true
  | OutOfFuel => False
  end.
Proof.
  intros tmp_dir. split; [apply fresh_dir_new|].
  pose proof (export_spine_outcome H spine_exec export_json spine_file
                output base_path w) as HO.
  destruct (export_spine _ _ _ _ _ _ w) as [u w'|e w'|];
    [| |contradiction]; destruct HO as [_ HO]; exact HO.
Qed.

(** C8, counterexample: the re-confirmation probe cannot start the
    renderer: the job ends by the exception and its workspace, which did
    not exist before the job, is still on disk. *)
Lemma workspace_left_behind :
  exists w',
    run_job (scripted_spine crash_on_confirm_script) = Raised OSError w' /\
    fs_exists (fresh_dir (tmp_fs empty_world)) (tmp_fs empty_world) = false /\
    fs_exists (fresh_dir (tmp_fs empty_world)) (tmp_fs w') = true /\
    probes_of w' =
      [Some 100; Some 56; Some 32; Some 44; Some 38; Some 42; Some 42].
Proof. eexists. repeat split; vm_compute; reflexivity. Qed.

(** The world [modify_export_json] leaves when [job_probe] starts at
    scale [s] in [ready_world]. *)
Lemma job_probe_rewritten (s : Z) :
  modify_export_json 1 "hero.spine" "out" s ready_world =
    Ok tt (set_tmp_fs
             (fs_write 1 (Document (mkConfig "hero.spine" "out" [s]))
                (tmp_fs ready_world)) ready_world).
Proof. reflexivity. Qed.




(** C9, as the code has it: when the renderer cannot be started,
    [try_export] ends by the exception of [subprocess.run]: it returns no
    classification and prints nothing. *)
Theorem spawn_failure_propagates (H : Host) (t : nat) (s : Z) (out f : string)
    (prm : Params) (w w1 : World) :
  modify_export_json t f out s w = Ok tt w1 ->
  spine H prm w1 = SpawnFailed ->
  try_export H t s out f prm w = Raised OSError (invoked prm w1) /\
  console (invoked prm w1) = console w.
Proof.
  intros Hm Hs. rewrite (try_export_run H _ _ _ _ _ _ _ Hm), Hs.
  split; [reflexivity|].
  apply modify_export_json_ok in Hm. destruct Hm as [_ ->]. reflexivity.
Qed.

Lemma spawn_failure_propagates_witness :
  exists w1,
    try_export (host_of (scripted_spine [])) 1 100 "out" "hero.spine" job_params
      ready_world = Raised OSError (invoked job_params w1) /\
    console (invoked job_params w1) = console ready_world.
Proof.
  eexists.
  apply (spawn_failure_propagates (host_of (scripted_spine [])) 1 100 "out"
           "hero.spine" job_params ready_world); reflexivity.
Defined.

(** C9, counterexample: with an executable that cannot be started the
    probe returns nothing to its caller: the exception leaves
    [try_export], and leaves [export_spine] too, and no line tells the
    operator about it. *)
Lemma spawn_failure_not_contained :
  (forall b w', job_probe (scripted_spine []) 100 ready_world <> Ok b w') /\
  exists w',
    job_probe (scripted_spine []) 100 ready_world = Raised OSError w' /\
    console w' = console ready_world /\
    exists w'',
      run_job (scripted_spine []) = Raised OSError w'' /\
      console w'' = [Processing "hero.spine" 1].
Proof.
  split.
  - intros b w'. vm_compute. discriminate.
  - eexists. split; [vm_compute; reflexivity|].
    split; [reflexivity|].
    eexists. split; vm_compute; reflexivity.
Qed.

(** What a probe that returned leaves behind. *)
Lemma try_export_returned (H : Host) (t : nat) (s : Z) (out f : string)
    (prm : Params) (w w2 : World) (b : bool) :
  try_export H t s out f prm w = Ok b w2 ->
  exists files,
    out_dir w2 = Some files /\
    (b = true -> List.length (png_files_of files) = 1%nat /\ console w2 = console w).
Proof.
  destruct (modify_export_json_cases t f out s w) as [[e E]|[w1 E]].
  - unfold try_export, bind. rewrite E. discriminate.
  - rewrite (try_export_run H _ _ _ _ _ _ _ E).
    apply modify_export_json_ok in E. destruct E as [_ ->].
    destruct (spine H prm _) as [rc stdout files|rc files|]; [| |discriminate];
      cbv zeta; destruct (rc =? 0); try discriminate.
    + intros [= Hb <-]. exists files. split; [reflexivity|].
      intros ->. split; [|reflexivity]. now apply Nat.eqb_eq.
    + destruct (contains misfit_signature stdout); intros [= <- <-];
        exists files; (split; [reflexivity | discriminate]).
    + intros [= Hb <-]. exists files. split; [reflexivity|].
      intros ->. split; [|reflexivity]. now apply Nat.eqb_eq.
Qed.

Lemma probes_length (w w' : World) (ss : list Z) :
  probes_of w' = probes_of w ++ map Some ss ->
  List.length (runs w') = (List.length (runs w) + List.length ss)%nat.
Proof.
  unfold probes_of. intros E.
  apply (f_equal (@List.length _)) in E.
  now rewrite length_app, !length_map in E.
Qed.

(** C6, as the code has it: when the first probe, at full scale, fits, the
    renderer is invoked exactly once in the whole job and the search ends
    with scale 100 (that is 1.0).  The single PNG of the output directory
    is then opened: when it can be read the job prints its success line
    with scale 100 and removes its workspace; when [Image.open] raises the
    job ends by that exception, with no result line and the workspace left
    in place. *)
Theorem fast_path_single_probe (H : Host) (spine_exec : string)
    (export_json : option ExportJson) (spine_file : string)
    (output base_path : option string) (w w1 w2 : World) (t : nat) (o : string) :
  setup H export_json spine_file output w = Ok (t, o) w1 ->
  try_export H t 100 o spine_file (mkParams spine_exec spine_file o t) w1
    = Ok true w2 ->
  exists png,
    png_files_of (listing_of w2) = [png] /\
    List.length (runs w2) = S (List.length (runs w)) /\
    probes_of w2 = probes_of w ++ [Some 100] /\
    (forall width height,
        get_png_resolution H w2 (path_join o png) = Some (width, height) ->
        exists w3,
          export_spine H spine_exec export_json spine_file output base_path w
            = Ok tt w3 /\
          runs w3 = runs w2 /\
          console w3 =
            console w2 ++
            [ExportCompleted
               (match base_path with
                | Some b => relpath H spine_file b
                | None => spine_file
                end) 100 width height o] /\
          fs_exists t (tmp_fs w3) = false) /\
    (get_png_resolution H w2 (path_join o png) = None ->
     export_spine H spine_exec export_json spine_file output base_path w
       = Raised UnidentifiedImageError w2 /\
     fs_exists t (tmp_fs w2) = true).
Proof.
  intros Hs Ht.
  pose proof (setup_spec H export_json spine_file output w) as HS.
  rewrite Hs in HS. destruct HS as (_ & HR & HE & _).
  pose proof (try_export_logs H t o spine_file
                (mkParams spine_exec spine_file o t) eq_refl 100 w1) as HL.
  cbv beta in HL. rewrite Ht in HL. destruct HL as [HP HD].
  destruct (try_export_returned _ _ _ _ _ _ _ _ _ Ht) as (files & Ho & Hpng).
  destruct (Hpng eq_refl) as [Hlen _].
  destruct (png_files_of files) as [|png [|extra rest]] eqn:Epng;
    try discriminate.
  assert (probes_of w2 = probes_of w ++ map Some [100]) as HP'
    by (rewrite HP; unfold probes_of; now rewrite HR).
  assert (fs_exists t (tmp_fs w2) = true) as HE2
    by now rewrite (fs_exists_same_dirs t _ _ HD).
  exists png. unfold listing_of. rewrite Ho, Epng.
  split; [reflexivity|].
  split; [rewrite (probes_length _ _ _ HP'); simpl; lia|].
  split; [exact HP'|].
  split.
  - intros width height Eres.
    exists (set_tmp_fs (fs_remove t (tmp_fs w2))
              (add_line (ExportCompleted
                           (match base_path with
                            | Some b => relpath H spine_file b
                            | None => spine_file
                            end) 100 width height o) w2)).
    split; [|split; [reflexivity|split; [reflexivity|]]].
    + unfold export_spine, bind. rewrite Hs. cbv beta iota.
      unfold scale_search, bind. rewrite Ht. cbn [negb]. cbv beta iota.
      unfold ret at 1. cbv beta iota.
      unfold report, bind, listdir. rewrite Ho, Epng, Eres.
      unfold print, rmtree. cbn [tmp_fs add_line]. rewrite HE2. reflexivity.
    + cbn [tmp_fs set_tmp_fs]. apply fs_exists_remove.
  - intros Eres. split; [|exact HE2].
    unfold export_spine, bind. rewrite Hs. cbv beta iota.
    unfold scale_search, bind. rewrite Ht. cbn [negb]. cbv beta iota.
    unfold ret at 1. cbv beta iota.
    unfold report, bind, listdir. rewrite Ho, Epng, Eres. reflexivity.
Qed.

Lemma fast_path_single_probe_witness :
  exists png,
    png = "skeleton.png" /\
    (forall width height,
        get_png_resolution (host_of (threshold_spine 100))
          (set_out_dir (Some ["skeleton.atlas"; "skeleton.png"])
             (invoked job_params
                (set_tmp_fs
                   (fs_write 1 (Document (mkConfig "hero.spine" "out" [100]))
                      (tmp_fs ready_world)) ready_world)))
          (path_join "out" png) = Some (width, height) ->
        exists w3,
          run_job (threshold_spine 100) = Ok tt w3 /\
          probes_of w3 = [Some 100] /\
          console w3 =
            [Processing "hero.spine" 1;
             ExportCompleted "hero.spine" 100 width height "out"] /\
          fs_exists 1 (tmp_fs w3) = false).
Proof.
  destruct (fast_path_single_probe (host_of (threshold_spine 100)) "Spine"
              (Some template) "hero.spine" (Some "out") None empty_world
              ready_world
              (set_out_dir (Some ["skeleton.atlas"; "skeleton.png"])
                 (invoked job_params
                    (set_tmp_fs
                       (fs_write 1 (Document (mkConfig "hero.spine" "out" [100]))
                          (tmp_fs ready_world)) ready_world)))
              1%nat "out" eq_refl eq_refl)
    as (png & Epng & _ & HP & Hok & _).
  injection Epng as <-.
  exists "skeleton.png". split; [reflexivity|].
  intros width height Eres.
  destruct (Hok width height Eres) as (w3 & E3 & R3 & C3 & F3).
  exists w3. split; [exact E3|].
  split; [unfold probes_of in *; rewrite R3; exact HP|].
  split; [exact C3 | exact F3].
Defined.

(** C6, counterexample: the first probe fits, leaving one file named like
    a PNG, but the file cannot be opened as an image: the job does not
    report success, it ends by the exception of [Image.open] after its one
    probe, with only the [Processing] line printed and the workspace left
    in place. *)
Lemma fast_path_image_unreadable :
  exists w2 w',
    try_export (host_without_images (threshold_spine 100)) 1 100 "out"
      "hero.spine" job_params ready_world = Ok true w2 /\
    export_spine (host_without_images (threshold_spine 100)) "Spine"
      (Some template) "hero.spine" (Some "out") None empty_world
      = Raised UnidentifiedImageError w' /\
    probes_of w' = [Some 100] /\
    console w' = [Processing "hero.spine" 1] /\
    fs_exists 1 (tmp_fs w') = true.
Proof.
  do 2 eexists. repeat split; vm_compute; reflexivity.
Qed.

(** ** Probes that answer by a fixed classifier *)

Section Classified.

Variable probe : Z -> M bool.
Variable Inv : World -> Prop.
Variable fits_at : Z -> bool.

Hypothesis probe_classifies :
  forall s w, Inv w -> exists w', probe s w = Ok (fits_at s) w' /\ Inv w'.

Lemma bisect_classified_step (fuel : nat) (left right ok_value : Z) (w : World) :
  Inv w -> left <= right ->
  exists w',
    Inv w' /\
    bisect probe (S fuel) left right ok_value w =
      if fits_at (next_middle left right)
      then bisect probe fuel (next_middle left right + 2) right
             (next_middle left right) w'
      else bisect probe fuel left (next_middle left right - 2) ok_value w'.
Proof.
  intros Hi Hle. rewrite bisect_step by assumption. unfold bind.
  destruct (probe_classifies (next_middle left right) w Hi) as (w' & E & Hi').
  rewrite E. exists w'. split; [assumption|].
  destruct (fits_at (next_middle left right)); reflexivity.
Qed.

Lemma bisect_classified_done (fuel : nat) (left right ok_value : Z) (w : World) :
  Inv w -> right < left ->
  exists w', Inv w' /\ bisect probe fuel left right ok_value w = Ok ok_value w'.
Proof.
  intros Hi Hlt. exists w. split; [assumption | now apply bisect_done].
Qed.

(** When nothing fits the loop leaves [ok_value] as it found it. *)
Lemma bisect_nothing_fits (fuel : nat) :
  (forall s, fits_at s = false) ->
  forall (left right ok_value : Z) (w : World),
    Inv w -> (loop_fuel left right <= fuel)%nat ->
    exists w', Inv w' /\ bisect probe fuel left right ok_value w = Ok ok_value w'.
Proof.
  intros Hnone.
  induction fuel as [|fuel IH]; intros left right ok_value w Hi Hf.
  - apply bisect_classified_done; [assumption|]. unfold loop_fuel in Hf. lia.
  - destruct (Z_lt_le_dec right left) as [Hlt|Hle].
    + now apply bisect_classified_done.
    + destruct (bisect_classified_step fuel left right ok_value w Hi Hle)
        as (w1 & Hi1 & E).
      rewrite E, Hnone.
      apply IH; [assumption|].
      pose proof (next_middle_near left right) as Hn.
      assert ((left + right) / 2 <= right)
        by (apply Z.div_le_upper_bound; lia).
      unfold loop_fuel in *. lia.
Qed.

End Classified.

(** One iteration of the loop against a classifying probe. *)
Ltac classified_step Hp :=
  match goal with
  | Hi : ?I ?w |- context [bisect ?p (S ?n) ?l ?r ?ok ?w] =>
      let w' := fresh "w" in
      let Hi' := fresh "Hi" in
      let E := fresh "E" in
      destruct (bisect_classified_step p I _ Hp n l r ok w Hi ltac:(lia))
        as (w' & Hi' & E);
      rewrite E; clear E Hi;
      let m := eval vm_compute in (next_middle l r) in
      change (next_middle l r) with m;
      cbv beta;
      repeat match goal with
             | |- context [?a <=? ?b] =>
                 let v := eval vm_compute in (a <=? b) in
                 change (a <=? b) with v
             end;
      cbv iota;
      repeat match goal with
             | |- context [m + 2] =>
                 let v := eval vm_compute in (m + 2) in change (m + 2) with v
             | |- context [m - 2] =>
                 let v := eval vm_compute in (m - 2) in change (m - 2) with v
             end
  end.

(** C1: End-to-end convergence: against a probe that fits exactly at the
    scales up to 42 the search ends with [failed = False] and scale 42;
    against a probe that never fits it ends with [failed = True]. *)
Theorem search_converges_to_42 :
  (forall (probe : Z -> M bool) (Inv : World -> Prop),
      (forall s w, Inv w ->
                   exists w', probe s w = Ok (s <=? 42) w' /\ Inv w') ->
      forall w, Inv w ->
                exists w', scale_search probe w = Ok (false, 42) w' /\ Inv w')
  /\
  (forall (probe : Z -> M bool) (Inv : World -> Prop),
      (forall s w, Inv w -> exists w', probe s w = Ok false w' /\ Inv w') ->
      forall w, Inv w ->
                exists w', scale_search probe w = Ok (true, 100) w' /\ Inv w').
Proof.
  split; intros probe Inv Hp w Hi; unfold scale_search, bind.
  - destruct (Hp 100 w Hi) as (w1 & E1 & Hi1). rewrite E1. clear E1 Hi.
    change (100 <=? 42) with false. cbn [negb]. cbv beta iota.
    change (loop_fuel 10 100) with 91%nat.
    do 5 classified_step Hp.
    rewrite bisect_done by lia.
    change (negb (42 =? 100)) with true. cbv beta iota.
    match goal with
    | Hi : Inv ?w5 |- _ => destruct (Hp 42 w5 Hi) as (w6 & E6 & Hi6)
    end.
    rewrite E6. exists w6. split; [reflexivity | assumption].
  - destruct (Hp 100 w Hi) as (w1 & E1 & Hi1). rewrite E1. clear E1 Hi.
    cbn [negb]. cbv beta iota.
    destruct (bisect_nothing_fits probe Inv (fun _ => false) Hp
                (loop_fuel 10 100) (fun _ => eq_refl) 10 100 100 w1 Hi1 (le_n _))
      as (w2 & Hi2 & E2).
    rewrite E2. change (negb (100 =? 100)) with false. cbv beta iota.
    exists w2. split; [reflexivity | assumption].
Qed.

(** The example renderers, seen through [try_export]. *)
Lemma job_probe_rewrites (sp : Params -> World -> Spawn) (s : Z) (w : World) :
  has_document 1 w ->
  let w1 :=
    set_tmp_fs
      (fs_write 1 (Document (mkConfig "hero.spine" "out" [s])) (tmp_fs w)) w in
  modify_export_json 1 "hero.spine" "out" s w = Ok tt w1 /\
  config_scale job_params w1 = [s] /\
  has_document 1 (invoked job_params w1).
Proof.
  intros [c Hr] w1. unfold modify_export_json, config_scale, has_document, w1.
  cbn [param_export job_params tmp_fs set_tmp_fs invoked add_run].
  rewrite fs_read_write by congruence.
  rewrite Hr. repeat split. eexists. reflexivity.
Qed.

Lemma threshold_probe_classifies (t s : Z) (w : World) :
  has_document 1 w ->
  exists w',
    job_probe (threshold_spine t) s w = Ok (s <=? t) w' /\
    has_document 1 w'.
Proof.
  intros Hr.
  destruct (job_probe_rewrites (threshold_spine t) s w Hr) as (Hm & Hc & Hi).
  unfold job_probe. rewrite (try_export_run _ _ _ _ _ _ _ _ Hm).
  cbn [spine host_of]. unfold threshold_spine. rewrite Hc.
  destruct (s <=? t); eexists; split; try reflexivity; exact Hi.
Qed.

Lemma misfit_probe_classifies (s : Z) (w : World) :
  has_document 1 w ->
  exists w',
    job_probe (fun _ _ => misfit) s w = Ok false w' /\
    has_document 1 w'.
Proof.
  intros Hr.
  destruct (job_probe_rewrites (fun _ _ => misfit) s w Hr) as (Hm & _ & Hi).
  unfold job_probe. rewrite (try_export_run _ _ _ _ _ _ _ _ Hm).
  eexists; split; [reflexivity | exact Hi].
Qed.

Lemma ready_world_has_document : has_document 1 ready_world.
Proof. eexists. reflexivity. Qed.

Lemma search_converges_to_42_witness :
  (exists w',
     scale_search (job_probe (threshold_spine 42)) ready_world = Ok (false, 42) w' /\
     has_document 1 w') /\
  (exists w',
     scale_search (job_probe (fun _ _ => misfit)) ready_world = Ok (true, 100) w' /\
     has_document 1 w').
Proof.
  split.
  - apply (proj1 search_converges_to_42 (job_probe (threshold_spine 42))
             (has_document 1) (threshold_probe_classifies 42) ready_world).
    exact ready_world_has_document.
  - apply (proj2 search_converges_to_42 (job_probe (fun _ _ => misfit))
             (has_document 1) misfit_probe_classifies ready_world).
    exact ready_world_has_document.
Defined.

(** The same two jobs from end to end. *)
Example job_fits_up_to_42 :
  exists w',
    run_job (threshold_spine 42) = Ok tt w' /\
    probes_of w' =
      [Some 100; Some 56; Some 32; Some 44; Some 38; Some 42; Some 42] /\
    console w' =
      [Processing "hero.spine" 1;
       ExportCompleted "hero.spine" 42 512 256 "out"] /\
    tmp_fs w' = [].
Proof. eexists. repeat split; vm_compute; reflexivity. Qed.

Example job_never_fits :
  exists w',
    run_job (fun _ _ => misfit) = Ok tt w' /\
    probes_of w' =
      [Some 100; Some 56; Some 32; Some 20; Some 14; Some 12; Some 10] /\
    console w' = [Processing "hero.spine" 1; Failed "hero.spine" "out"] /\
    tmp_fs w' = [].
Proof. eexists. repeat split; vm_compute; reflexivity. Qed.

(** C2, as the code has it: in every iteration of the loop the candidate
    handed to the probe is [(left + right) // 2] rounded UP to an even
    integer: it is even, it is the floor of the midpoint or that floor plus
    one, and for even bounds it lies between them. *)
Theorem candidate_rounds_up (probe : Z -> M bool) (fuel : nat)
    (left right ok_value : Z) (w : World) :
  left <= right ->
  let middle := next_middle left right in
  bisect probe (S fuel) left right ok_value w =
    (fits <- probe middle ;;
     if fits then bisect probe fuel (middle + 2) right middle
     else bisect probe fuel left (middle - 2) ok_value) w /\
  Z.even middle = true /\
  (left + right) / 2 <= middle <= (left + right) / 2 + 1 /\
  (Z.even left = true -> Z.even right = true -> left <= middle <= right).
Proof.
  intros Hle middle. split; [now apply bisect_step|].
  split; [apply next_middle_even|].
  split; [apply next_middle_near|].
  intros Hl Hr. now apply next_middle_grid.
Qed.

Lemma candidate_rounds_up_witness :
  bisect (job_probe (threshold_spine 42)) 91 10 100 100 ready_world =
    (fits <- job_probe (threshold_spine 42) 56 ;;
     if fits then bisect (job_probe (threshold_spine 42)) 90 58 100 56
     else bisect (job_probe (threshold_spine 42)) 90 10 54 100) ready_world /\
  Z.even 56 = true /\
  55 <= 56 <= 56 /\
  (Z.even 10 = true -> Z.even 100 = true -> 10 <= 56 <= 100).
Proof.
  apply (candidate_rounds_up (job_probe (threshold_spine 42)) 90 10 100 100
           ready_world).
  lia.
Defined.

(** C2, counterexample: in the first iteration of the loop, with bounds 10
    and 100, the midpoint is 55 and the probed candidate is 56, whereas the
    midpoint rounded down to an even integer is 54. *)
Lemma candidate_not_rounded_down :
  (10 + 100) / 2 = 55 /\
  next_middle 10 100 = 56 /\
  spec_middle_rounded_down 10 100 = 54 /\
  next_middle 10 100 <> spec_middle_rounded_down 10 100 /\
  exists w',
    run_job (threshold_spine 42) = Ok tt w' /\
    nth 1 (probes_of w') None = Some 56.
Proof.
  repeat split; try (vm_compute; congruence).
  eexists. split; vm_compute; reflexivity.
Qed.

(** C3, as the code has it: when the full-scale probe does not fit the
    loop is entered with [left = 10], [right = 100] and [ok_value = 100]:
    its first candidate is 56, and when the probes at 56, 80, 92 and 98 all
    fit its next probe is at 100 again. *)
Theorem loop_starts_at_10_100 (probe : Z -> M bool) (w w1 : World) :
  probe 100 w = Ok false w1 ->
  scale_search probe w =
    (ok_value <- bisect probe (loop_fuel 10 100) 10 100 100 ;;
     if negb (ok_value =? 100)
     then probe ok_value ;;; ret (false, ok_value)
     else ret (true, 100)) w1 /\
  next_middle 10 100 = 56 /\
  forall w2 w3 w4 w5,
    probe 56 w1 = Ok true w2 -> probe 80 w2 = Ok true w3 ->
    probe 92 w3 = Ok true w4 -> probe 98 w4 = Ok true w5 ->
    bisect probe (loop_fuel 10 100) 10 100 100 w1 =
      (fits <- probe 100 ;; ret (if fits then 100 else 98)) w5.
Proof.
  intros E. split; [|split; [reflexivity|]].
  - unfold scale_search, bind at 1. rewrite E. reflexivity.
  - intros w2 w3 w4 w5 E2 E3 E4 E5.
    change (loop_fuel 10 100) with 91%nat.
    rewrite bisect_step by lia. unfold bind at 1.
    change (next_middle 10 100) with 56. rewrite E2.
    rewrite bisect_step by lia. unfold bind at 1.
    change (next_middle (56 + 2) 100) with 80. rewrite E3.
    rewrite bisect_step by lia. unfold bind at 1.
    change (next_middle (80 + 2) 100) with 92. rewrite E4.
    rewrite bisect_step by lia. unfold bind at 1.
    change (next_middle (92 + 2) 100) with 98. rewrite E5.
    rewrite bisect_step by lia. unfold bind.
    change (next_middle (98 + 2) 100) with 100.
    destruct (probe 100 w5) as [fits w6|e w6|]; [|reflexivity|reflexivity].
    destruct fits; rewrite bisect_done by lia; reflexivity.
Qed.

Lemma loop_starts_at_10_100_witness :
  exists w1,
    job_probe (scripted_spine late_fit_script) 100 ready_world = Ok false w1 /\
    scale_search (job_probe (scripted_spine late_fit_script)) ready_world =
      (ok_value <- bisect (job_probe (scripted_spine late_fit_script))
                     (loop_fuel 10 100) 10 100 100 ;;
       if negb (ok_value =? 100)
       then job_probe (scripted_spine late_fit_script) ok_value ;;;
            ret (false, ok_value)
       else ret (true, 100)) w1 /\
    next_middle 10 100 = 56 /\
    forall w2 w3 w4 w5,
      job_probe (scripted_spine late_fit_script) 56 w1 = Ok true w2 ->
      job_probe (scripted_spine late_fit_script) 80 w2 = Ok true w3 ->
      job_probe (scripted_spine late_fit_script) 92 w3 = Ok true w4 ->
      job_probe (scripted_spine late_fit_script) 98 w4 = Ok true w5 ->
      bisect (job_probe (scripted_spine late_fit_script))
        (loop_fuel 10 100) 10 100 100 w1 =
        (fits <- job_probe (scripted_spine late_fit_script) 100 ;;
         ret (if fits then 100 else 98)) w5.
Proof.
  eexists. split; [vm_compute; reflexivity|].
  apply (loop_starts_at_10_100 (job_probe (scripted_spine late_fit_script))
           ready_world).
  reflexivity.
Defined.

(** C3, counterexample: the first candidate of the loop is 56, not the 54
    that an upper bound of 98 would give, and when every candidate fits the
    loop probes 100, the domain maximum, a second time. *)
Lemma loop_reprobes_full_scale :
  next_middle 10 98 = 54 /\
  exists w',
    run_job (scripted_spine late_fit_script) = Ok tt w' /\
    probes_of w' =
      [Some 100; Some 56; Some 80; Some 92; Some 98; Some 100].
Proof.
  split; [reflexivity|].
  eexists. split; vm_compute; reflexivity.
Qed.

(** C4, the failing run: the full-scale probe fails, then every probe of
    the loop fits (56, 80, 92, 98 and 100): [ok_value] ends as 100, which
    is also its initial value, and the job prints its failure line although
    the export is on disk. *)
Lemma late_fit_reported_failed :
  exists w1 w2 w3 w',
    job_probe (scripted_spine late_fit_script) 100 ready_world = Ok false w1 /\
    job_probe (scripted_spine late_fit_script) 56 w1 = Ok true w2 /\
    scale_search (job_probe (scripted_spine late_fit_script)) ready_world
      = Ok (true, 100) w3 /\
    run_job (scripted_spine late_fit_script) = Ok tt w' /\
    console w' = [Processing "hero.spine" 1; Failed "hero.spine" "out"] /\
    png_files_of (listing_of w') = ["skeleton.png"].
Proof.
  do 4 eexists. repeat split; vm_compute; reflexivity.
Qed.

(** C10, the failing run: the loop records a fitting value, 100, by its
    last probe; the job makes no re-confirmation probe and prints its
    failure line instead of reporting success with the recorded value: a
    recorded value of 100 is not told apart from no value at all. *)
Lemma recorded_full_scale_not_reported :
  exists w1 w2 w',
    job_probe (scripted_spine late_fit_script) 100 ready_world = Ok false w1 /\
    bisect (job_probe (scripted_spine late_fit_script)) (loop_fuel 10 100)
      10 100 100 w1 = Ok 100 w2 /\
    probes_of w2 = [Some 100; Some 56; Some 80; Some 92; Some 98; Some 100] /\
    png_files_of (listing_of w2) = ["skeleton.png"] /\
    run_job (scripted_spine late_fit_script) = Ok tt w' /\
    probes_of w' = probes_of w2 /\
    console w' = [Processing "hero.spine" 1; Failed "hero.spine" "out"].
Proof.
  do 3 eexists.
  repeat (split; [vm_compute; reflexivity|]).
  vm_compute. reflexivity.
Qed.

(** * Beyond the claims *)

(** ** Text: what [endswith] and [contains] decide *)

Lemma string_length_append (a b : string) :
  String.length (String.append a b) = (String.length a + String.length b)%nat.
Proof. induction a as [|c a IH]; simpl; congruence. Qed.

Lemma substring_whole (s : string) : substring 0 (String.length s) s = s.
Proof. induction s as [|c s IH]; simpl; congruence. Qed.

Lemma substring_split (s : string) :
  forall m, (m <= String.length s)%nat ->
            s = String.append (substring 0 m s)
                  (substring m (String.length s - m) s).
Proof.
  induction s as [|c s IH]; intros m Hm.
  - simpl in Hm. assert (m = O) as -> by lia. reflexivity.
  - destruct m as [|m].
    + change (substring 0 0 (String c s)) with EmptyString.
      rewrite Nat.sub_0_r, substring_whole. reflexivity.
    + simpl in Hm. simpl. f_equal. apply IH. lia.
Qed.

Lemma substring_after (a b : string) :
  substring (String.length a) (String.length b) (String.append a b) = b.
Proof.
  induction a as [|c a IH]; simpl; [apply substring_whole | exact IH].
Qed.

Lemma endswith_spec (s suffix : string) :
  endswith s suffix = true <-> exists stem, s = String.append stem suffix.
Proof.
  unfold endswith. split.
  - intros E. apply andb_true_iff in E. destruct E as [Hk Hs].
    apply Nat.leb_le in Hk. apply String.eqb_eq in Hs.
    exists (substring 0 (String.length s - String.length suffix) s).
    pose proof (substring_split s (String.length s - String.length suffix)
                  ltac:(lia)) as Hsplit.
    replace (String.length s - (String.length s - String.length suffix))%nat
      with (String.length suffix) in Hsplit by lia.
    now rewrite Hs in Hsplit.
  - intros [stem ->]. rewrite string_length_append.
    apply andb_true_iff. split; [apply Nat.leb_le; lia|].
    replace (String.length stem + String.length suffix - String.length suffix)%nat
      with (String.length stem) by lia.
    rewrite substring_after. apply String.eqb_refl.
Qed.

Lemma prefix_spec (a s : string) :
  prefix a s = true <-> exists rest, s = String.append a rest.
Proof.
  revert s. induction a as [|c a IH]; intros s.
  - split; [intros _; now exists s | intros _; now destruct s].
  - destruct s as [|c' s]; simpl.
    + split; [discriminate | intros [rest E]; discriminate].
    + destruct (Ascii.ascii_dec c c') as [->|Hne].
      * rewrite IH. split; intros [rest E]; exists rest; congruence.
      * split; [discriminate | intros [rest E]; congruence].
Qed.

Lemma contains_spec (needle hay : string) :
  contains needle hay = true <->
  exists before after,
    hay = String.append before (String.append needle after).
Proof.
  induction hay as [|c hay IH].
  - change (contains needle EmptyString)
      with (prefix needle EmptyString || false).
    rewrite orb_false_r, prefix_spec. split.
    + intros [rest E]. now exists EmptyString, rest.
    + intros (before & after & E). exists after.
      destruct before; [exact E | discriminate].
  - change (contains needle (String c hay))
      with (prefix needle (String c hay) || contains needle hay).
    rewrite orb_true_iff, IH, prefix_spec. split.
    + intros [[rest E]|(before & after & E)].
      * now exists EmptyString, rest.
      * exists (String c before), after. simpl. now rewrite E.
    + intros (before & after & E). destruct before as [|c' before].
      * left. now exists after.
      * right. simpl in E. injection E as _ E. now exists before, after.
Qed.

(** ** [check_output_folder] *)

Lemma filter_nil_iff {A} (p : A -> bool) (l : list A) :
  filter p l = [] <-> Forall (fun x => p x = false) l.
Proof.
  induction l as [|a l IH]; simpl; [split; constructor|].
  destruct (p a) eqn:E.
  - split; [discriminate | intros HF; inversion HF; congruence].
  - rewrite IH. split; [now constructor | intros HF; now inversion HF].
Qed.

Lemma filter_single {A} (p : A -> bool) (l : list A) :
  List.length (filter p l) = 1%nat <->
  exists before x after,
    l = before ++ x :: after /\ p x = true /\
    Forall (fun y => p y = false) before /\ Forall (fun y => p y = false) after.
Proof.
  induction l as [|a l IH]; simpl.
  - split; [discriminate|].
    intros (before & x & after & E & _). now destruct before.
  - destruct (p a) eqn:Ea; simpl.
    + split.
      * intros Hlen. exists [], a, l. repeat split; auto.
        apply filter_nil_iff. apply length_zero_iff_nil. lia.
      * intros (before & x & after & E & Hx & Hb & Ha).
        destruct before as [|b before]; simpl in E; injection E as -> ->.
        -- apply filter_nil_iff in Ha. now rewrite Ha.
        -- inversion Hb; congruence.
    + rewrite IH. split.
      * intros (before & x & after & -> & Hx & Hb & Ha).
        exists (a :: before), x, after. repeat split; auto.
      * intros (before & x & after & E & Hx & Hb & Ha).
        destruct before as [|b before]; simpl in E; injection E as -> ->.
        -- congruence.
        -- exists before, x, after. inversion Hb. repeat split; auto.
Qed.

Lemma not_png_iff (f : string) :
  endswith f ".png" = false <-> ~ has_png_name f.
Proof.
  unfold has_png_name. rewrite <- endswith_spec.
  destruct (endswith f ".png"); split; congruence.
Qed.

Lemma one_png_iff (files : list string) :
  Nat.eqb (List.length (png_files_of files)) 1 = true <-> exactly_one_png files.
Proof.
  rewrite Nat.eqb_eq. unfold png_files_of, exactly_one_png.
  rewrite filter_single.
  split; intros (before & f & after & E & Hf & Hb & Ha);
    exists before, f, after; (split; [exact E|]); split.
  - now apply endswith_spec.
  - split; (eapply Forall_impl; [|eassumption]); intros g; apply not_png_iff.
  - now apply endswith_spec.
  - split; (eapply Forall_impl; [|eassumption]); intros g; apply not_png_iff.
Qed.

(** X1: [check_output_folder] only reads: it raises when the output
    directory is missing, and otherwise answers [True] exactly when one
    entry of the listing, and no other, has a name ending in ".png". *)
Theorem check_output_folder_spec (w : World) :
  match out_dir w with
  | None => check_output_folder w = Raised OSError w
  | Some files =>
      exists b, check_output_folder w = Ok b w /\
                (b = true <-> exactly_one_png files)
  end.
Proof.
  unfold check_output_folder, bind, listdir.
  destruct (out_dir w) as [files|]; [|reflexivity].
  eexists. split; [reflexivity | apply one_png_iff].
Qed.

Lemma png_count_permutation (files files' : list string) :
  Permutation files files' ->
  List.length (png_files_of files) = List.length (png_files_of files').
Proof.
  unfold png_files_of.
  induction 1 as [|x l l' HP IH|x y l|l l' l'' HP1 IH1 HP2 IH2]; simpl.
  - reflexivity.
  - destruct (endswith x ".png"); simpl; congruence.
  - destruct (endswith x ".png"), (endswith y ".png"); reflexivity.
  - congruence.
Qed.

(** X2: the answer of [check_output_folder] does not depend on the order
    in which [os.listdir] returns the entries. *)
Theorem check_output_folder_order (w : World) (files files' : list string) :
  Permutation files files' ->
  exists b,
    check_output_folder (set_out_dir (Some files) w)
      = Ok b (set_out_dir (Some files) w) /\
    check_output_folder (set_out_dir (Some files') w)
      = Ok b (set_out_dir (Some files') w).
Proof.
  intros HP. unfold check_output_folder, bind, listdir. simpl.
  rewrite (png_count_permutation _ _ HP).
  eexists. split; reflexivity.
Qed.

Lemma check_output_folder_order_witness :
  exists b,
    check_output_folder
      (set_out_dir (Some ["skeleton.png"; "skeleton.atlas"]) empty_world)
      = Ok b (set_out_dir (Some ["skeleton.png"; "skeleton.atlas"]) empty_world) /\
    check_output_folder
      (set_out_dir (Some ["skeleton.atlas"; "skeleton.png"]) empty_world)
      = Ok b (set_out_dir (Some ["skeleton.atlas"; "skeleton.png"]) empty_world).
Proof.
  apply (check_output_folder_order empty_world
           ["skeleton.png"; "skeleton.atlas"] ["skeleton.atlas"; "skeleton.png"]).
  apply perm_swap.
Defined.

(** ** [modify_export_json] and the exit-code paths of [try_export] *)

Lemma fs_read_write_other (d t : nat) (c : ExportJson) (fs : list (nat * option ExportJson)) :
  d <> t -> fs_read d (fs_write t c fs) = fs_read d fs.
Proof.
  intros Hne. induction fs as [|[d' c'] fs IH]; simpl; [reflexivity|].
  destruct (Nat.eqb t d') eqn:Et; simpl.
  - apply Nat.eqb_eq in Et. subst d'.
    apply Nat.eqb_neq in Hne. now rewrite Hne.
  - destruct (Nat.eqb d d'); [reflexivity | exact IH].
Qed.

Lemma fs_write_write (t : nat) (c1 c2 : ExportJson) (fs : list (nat * option ExportJson)) :
  fs_write t c2 (fs_write t c1 fs) = fs_write t c2 fs.
Proof.
  induction fs as [|[d' c'] fs IH]; simpl; [reflexivity|].
  destruct (Nat.eqb t d') eqn:Et; simpl; rewrite Et; congruence.
Qed.

(** X3: [modify_export_json] raises, and leaves everything as it was,
    when the temporary directory holds no export.json, when the file is
    no JSON, when it is a JSON object without "packAtlas", and when it is
    JSON of another wrong shape.  On a well-formed file it succeeds: the
    file then reads back as exactly the three values written, every other
    temporary directory reads as before, nothing else in the world
    changes, and a second rewrite erases the first, so that what the
    renderer reads depends on the last call only. *)
Theorem modify_export_json_spec (t : nat) (f o : string) (s : Z) (w : World) :
  match fs_read t (tmp_fs w) with
  | None => modify_export_json t f o s w = Raised OSError w
  | Some NotJson => modify_export_json t f o s w = Raised JSONDecodeError w
  | Some NoPackAtlas => modify_export_json t f o s w = Raised KeyError w
  | Some WrongShape => modify_export_json t f o s w = Raised TypeError w
  | Some (Document _) =>
      exists w1,
        modify_export_json t f o s w = Ok tt w1 /\
        fs_read t (tmp_fs w1) = Some (Document (mkConfig f o [s])) /\
        (forall d, d <> t -> fs_read d (tmp_fs w1) = fs_read d (tmp_fs w)) /\
        tmp_dirs w1 = tmp_dirs w /\ out_dir w1 = out_dir w /\
        runs w1 = runs w /\ console w1 = console w /\
        forall f' o' s',
          modify_export_json t f' o' s' w1 = modify_export_json t f' o' s' w
  end.
Proof.
  unfold modify_export_json.
  destruct (fs_read t (tmp_fs w)) as [[c| | |]|] eqn:E; try reflexivity.
  eexists. split; [reflexivity|].
  cbn [tmp_fs set_tmp_fs out_dir runs console].
  assert (fs_read t (fs_write t (Document (mkConfig f o [s])) (tmp_fs w))
          = Some (Document (mkConfig f o [s]))) as Hback
    by (apply fs_read_write; congruence).
  split; [exact Hback|].
  split; [intros d Hd; now apply fs_read_write_other|].
  split; [apply fs_write_dirs|].
  repeat (split; [reflexivity|]).
  intros f' o' s'. cbn [tmp_fs set_tmp_fs out_dir runs console].
  rewrite Hback, fs_write_write. reflexivity.
Qed.

Lemma modify_export_json_spec_witness :
  (exists w1,
     modify_export_json 1 "hero.spine" "out" 56 ready_world = Ok tt w1 /\
     fs_read 1 (tmp_fs w1) = Some (Document (mkConfig "hero.spine" "out" [56])) /\
     (forall d, d <> 1%nat ->
                fs_read d (tmp_fs w1) = fs_read d (tmp_fs ready_world)) /\
     tmp_dirs w1 = tmp_dirs ready_world /\ out_dir w1 = out_dir ready_world /\
     runs w1 = runs ready_world /\ console w1 = console ready_world /\
     forall f' o' s',
       modify_export_json 1 f' o' s' w1
       = modify_export_json 1 f' o' s' ready_world) /\
  modify_export_json 1 "hero.spine" "out" 56
    (set_tmp_fs [(1%nat, Some NoPackAtlas)] ready_world)
    = Raised KeyError (set_tmp_fs [(1%nat, Some NoPackAtlas)] ready_world).
Proof.
  split.
  - exact (modify_export_json_spec 1 "hero.spine" "out" 56 ready_world).
  - exact (modify_export_json_spec 1 "hero.spine" "out" 56
             (set_tmp_fs [(1%nat, Some NoPackAtlas)] ready_world)).
Defined.

(** X4: after an exit code of zero [try_export] prints nothing, whatever
    the renderer wrote to its stdout (the misfit signature and bytes that
    are no UTF-8 included), and answers [True] exactly when the renderer
    left exactly one PNG in the output directory. *)
Theorem zero_exit_classified_by_listing (H : Host) (t : nat) (s : Z)
    (out f : string) (prm : Params) (w w1 : World) (stdout : string)
    (files : list string) :
  modify_export_json t f out s w = Ok tt w1 ->
  spine H prm w1 = Exited 0 stdout files \/
  spine H prm w1 = ExitedGarbled 0 files ->
  exists b w',
    try_export H t s out f prm w = Ok b w' /\
    (b = true <-> exactly_one_png files) /\
    console w' = console w /\ out_dir w' = Some files.
Proof.
  intros Hm Hs. rewrite (try_export_run H _ _ _ _ _ _ _ Hm).
  apply modify_export_json_ok in Hm. destruct Hm as [_ ->].
  destruct Hs as [-> | ->]; cbv zeta; change (0 =? 0) with true; cbv iota;
    do 2 eexists; (split; [reflexivity|]);
    (split; [apply one_png_iff|]); split; reflexivity.
Qed.

Lemma zero_exit_classified_by_listing_witness :
  (exists b w',
     job_probe (fun _ _ => Exited 0 misfit_signature ["a.png"; "b.png"]) 56
       ready_world = Ok b w' /\
     (b = true <-> exactly_one_png ["a.png"; "b.png"]) /\
     console w' = console ready_world /\ out_dir w' = Some ["a.png"; "b.png"]) /\
  (exists b w',
     job_probe (fun _ _ => ExitedGarbled 0 ["a.png"]) 56
       ready_world = Ok b w' /\
     (b = true <-> exactly_one_png ["a.png"]) /\
     console w' = console ready_world /\ out_dir w' = Some ["a.png"]).
Proof.
  split.
  - apply (zero_exit_classified_by_listing
             (host_of (fun _ _ => Exited 0 misfit_signature ["a.png"; "b.png"]))
             1 56 "out" "hero.spine" job_params ready_world _
             misfit_signature ["a.png"; "b.png"] (job_probe_rewritten 56)).
    left. reflexivity.
  - apply (zero_exit_classified_by_listing
             (host_of (fun _ _ => ExitedGarbled 0 ["a.png"]))
             1 56 "out" "hero.spine" job_params ready_world _
             EmptyString ["a.png"] (job_probe_rewritten 56)).
    right. reflexivity.
Defined.

(** X5: after a non-zero exit whose captured stdout is valid UTF-8,
    [try_export] answers [False]; it stays silent exactly when the
    signature occurs somewhere in that stdout, whatever comes before or
    after it, and prints the whole stdout otherwise.  After a non-zero
    exit whose stdout is not valid UTF-8 it ends by the exception of the
    decoding and prints nothing. *)
Theorem nonzero_exit_signature_anywhere (H : Host) (t : nat) (s : Z)
    (out f : string) (prm : Params) (w w1 : World) (rc : Z) (stdout : string)
    (files : list string) :
  modify_export_json t f out s w = Ok tt w1 ->
  rc <> 0 ->
  (spine H prm w1 = Exited rc stdout files ->
   exists w',
     try_export H t s out f prm w = Ok false w' /\
     ((exists before after,
          stdout = String.append before (String.append misfit_signature after)) ->
      console w' = console w) /\
     ((~ exists before after,
           stdout = String.append before (String.append misfit_signature after)) ->
      console w' = console w ++ [ErrorWhileExporting f s stdout])) /\
  (spine H prm w1 = ExitedGarbled rc files ->
   exists w',
     try_export H t s out f prm w = Raised UnicodeDecodeError w' /\
     console w' = console w).
Proof.
  intros Hm Hrc.
  rewrite (try_export_run H _ _ _ _ _ _ _ Hm).
  apply Z.eqb_neq in Hrc.
  apply modify_export_json_ok in Hm. destruct Hm as [_ ->].
  split; intros ->; cbv zeta; rewrite Hrc.
  - pose proof (contains_spec misfit_signature stdout) as Hspec.
    destruct (contains misfit_signature stdout); eexists;
      (split; [reflexivity|]); split.
    + reflexivity.
    + intros Hn. destruct Hn. now apply Hspec.
    + intros Hin. apply Hspec in Hin. discriminate.
    + reflexivity.
  - eexists. split; reflexivity.
Qed.

Lemma nonzero_exit_signature_anywhere_witness :
  (exists w',
     job_probe
       (fun _ _ => Exited 1 "ERROR: Image does not fit within max page size" [])
       56 ready_world = Ok false w' /\
     ((exists before after,
          "ERROR: Image does not fit within max page size"
          = String.append before (String.append misfit_signature after)) ->
      console w' = console ready_world) /\
     ((~ exists before after,
           "ERROR: Image does not fit within max page size"
           = String.append before (String.append misfit_signature after)) ->
      console w' =
        console ready_world ++
        [ErrorWhileExporting "hero.spine" 56
           "ERROR: Image does not fit within max page size"])) /\
  (exists w',
     job_probe (fun _ _ => ExitedGarbled 1 []) 56 ready_world
       = Raised UnicodeDecodeError w' /\
     console w' = console ready_world).
Proof.
  split.
  - apply (proj1 (nonzero_exit_signature_anywhere
                    (host_of (fun _ _ =>
                       Exited 1 "ERROR: Image does not fit within max page size" []))
                    1 56 "out" "hero.spine" job_params ready_world _
                    1 "ERROR: Image does not fit within max page size" []
                    (job_probe_rewritten 56) ltac:(discriminate))).
    reflexivity.
  - apply (proj2 (nonzero_exit_signature_anywhere
                    (host_of (fun _ _ => ExitedGarbled 1 []))
                    1 56 "out" "hero.spine" job_params ready_world _
                    1 EmptyString [] (job_probe_rewritten 56)
                    ltac:(discriminate))).
    reflexivity.
Defined.

(** ** The search against a monotone renderer *)

Section Threshold.

Variable probe : Z -> M bool.
Variable Inv : World -> Prop.
Variable t : Z.

Hypothesis probe_threshold :
  forall s w, Inv w -> exists w', probe s w = Ok (s <=? t) w' /\ Inv w'.

(** The loop from any state it can be in: below [left] everything fits or
    [ok_value] is the candidate just below [left]. *)
Lemma bisect_threshold (fuel : nat) :
  forall (left right ok_value : Z) (w : World),
    Inv w -> Z.even left = true -> Z.even right = true ->
    (loop_fuel left right <= fuel)%nat ->
    left <= right \/ t < left \/ (left = right + 2 /\ ok_value = right) ->
    exists w',
      Inv w' /\
      bisect probe fuel left right ok_value w =
        Ok (if t <? left then ok_value else Z.min right (2 * (t / 2))) w'.
Proof.
  pose proof (Z.div_mod t 2 ltac:(lia)) as Ht.
  pose proof (Z.mod_pos_bound t 2 ltac:(lia)) as Hr2.
  induction fuel as [|fuel IH]; intros left right ok_value w Hi Hl Hr Hf Hst.
  - assert (right < left) as Hlt by (unfold loop_fuel in Hf; lia).
    exists w. split; [assumption|].
    rewrite bisect_done by assumption. f_equal.
    destruct (t <? left) eqn:E; [reflexivity|].
    apply Z.ltb_ge in E. destruct (even_double _ Hr) as [b ->]. lia.
  - destruct (Z_lt_le_dec right left) as [Hlt|Hle].
    + exists w. split; [assumption|].
      rewrite bisect_done by assumption. f_equal.
      destruct (t <? left) eqn:E; [reflexivity|].
      apply Z.ltb_ge in E. destruct (even_double _ Hr) as [b ->]. lia.
    + destruct (bisect_classified_step probe Inv (fun s => s <=? t)
                  probe_threshold fuel left right ok_value w Hi Hle)
        as (w1 & Hi1 & E).
      rewrite E. clear E.
      destruct (next_middle_grid left right Hl Hr Hle) as [Hm Hb].
      set (m := next_middle left right) in *.
      destruct (even_step m Hm) as [Hup Hdown].
      destruct (even_double _ Hm) as [a Ha].
      destruct (even_double _ Hl) as [la Hla].
      destruct (even_double _ Hr) as [rb Hrb].
      destruct (m <=? t) eqn:Efit.
      * apply Z.leb_le in Efit.
        destruct (IH (m + 2) right m w1 Hi1 Hup Hr
                    (loop_fuel_up _ _ _ _ (proj1 Hb) Hf) ltac:(lia))
          as (w2 & Hi2 & E2).
        exists w2. split; [assumption|]. rewrite E2. f_equal.
        destruct (t <? m + 2) eqn:E1, (t <? left) eqn:E3;
          try apply Z.ltb_lt in E1; try apply Z.ltb_ge in E1;
          try apply Z.ltb_lt in E3; try apply Z.ltb_ge in E3; lia.
      * apply Z.leb_gt in Efit.
        destruct (IH left (m - 2) ok_value w1 Hi1 Hl Hdown
                    (loop_fuel_down _ _ _ _ Hle (proj2 Hb) Hf) ltac:(lia))
          as (w2 & Hi2 & E2).
        exists w2. split; [assumption|]. rewrite E2. f_equal.
        destruct (t <? left) eqn:E3; [reflexivity|].
        apply Z.ltb_ge in E3. lia.
Qed.

End Threshold.

Lemma threshold_result_maximal (t : Z) :
  10 <= t < 100 ->
  exists s, threshold_result t = (false, s) /\
            Z.even s = true /\ 10 <= s /\ s <= t < s + 2.
Proof.
  intros Ht. exists (2 * (t / 2)). unfold threshold_result.
  destruct (100 <=? t) eqn:E1; [apply Z.leb_le in E1; lia|].
  destruct (t <? 10) eqn:E2; [apply Z.ltb_lt in E2; lia|].
  split; [reflexivity|].
  split; [rewrite Z.even_mul; reflexivity|].
  pose proof (Z.div_mod t 2 ltac:(lia)).
  pose proof (Z.mod_pos_bound t 2 ltac:(lia)). lia.
Qed.

(** X6: against a renderer whose export fits exactly at the scales up to
    some [t], the search reports full scale when [100 <= t], failure when
    [t < 10], and otherwise the largest even percentage [s] that fits:
    [s <= t < s + 2]. *)
Theorem monotone_search_finds_largest (probe : Z -> M bool)
    (Inv : World -> Prop) (t : Z) :
  (forall s w, Inv w -> exists w', probe s w = Ok (s <=? t) w' /\ Inv w') ->
  forall w, Inv w ->
    (exists w', scale_search probe w = Ok (threshold_result t) w' /\ Inv w') /\
    (100 <= t -> threshold_result t = (false, 100)) /\
    (t < 10 -> threshold_result t = (true, 100)) /\
    (10 <= t < 100 ->
     exists s, threshold_result t = (false, s) /\
               Z.even s = true /\ 10 <= s /\ s <= t < s + 2).
Proof.
  intros Hp w Hi. split; [|split; [|split]].
  - unfold scale_search, bind, threshold_result.
    destruct (Hp 100 w Hi) as (w1 & E1 & Hi1). rewrite E1.
    destruct (100 <=? t) eqn:Efull; cbn [negb]; cbv beta iota.
    + exists w1. split; [reflexivity | assumption].
    + apply Z.leb_gt in Efull.
      destruct (bisect_threshold probe Inv t Hp (loop_fuel 10 100) 10 100 100 w1
                  Hi1 eq_refl eq_refl (le_n _) ltac:(lia))
        as (w2 & Hi2 & E2).
      rewrite E2.
      destruct (t <? 10) eqn:Elow.
      * change (negb (100 =? 100)) with false. cbv beta iota.
        exists w2. split; [reflexivity | assumption].
      * apply Z.ltb_ge in Elow.
        pose proof (Z.div_mod t 2 ltac:(lia)).
        pose proof (Z.mod_pos_bound t 2 ltac:(lia)).
        replace (Z.min 100 (2 * (t / 2))) with (2 * (t / 2)) by lia.
        assert ((2 * (t / 2) =? 100) = false) as -> by (apply Z.eqb_neq; lia).
        cbn [negb]. cbv beta iota.
        destruct (Hp (2 * (t / 2)) w2 Hi2) as (w3 & E3 & Hi3). rewrite E3.
        exists w3. split; [reflexivity | assumption].
  - intros Ht. unfold threshold_result.
    apply Z.leb_le in Ht. now rewrite Ht.
  - intros Ht. unfold threshold_result.
    destruct (100 <=? t) eqn:E; [apply Z.leb_le in E; lia|].
    apply Z.ltb_lt in Ht. now rewrite Ht.
  - apply threshold_result_maximal.
Qed.

Lemma monotone_search_finds_largest_witness :
  (exists w',
     scale_search (job_probe (threshold_spine 73)) ready_world = Ok (false, 72) w' /\
     has_document 1 w') /\
  (100 <= 73 -> threshold_result 73 = (false, 100)) /\
  (73 < 10 -> threshold_result 73 = (true, 100)) /\
  (10 <= 73 < 100 ->
   exists s, threshold_result 73 = (false, s) /\
             Z.even s = true /\ 10 <= s /\ s <= 73 < s + 2).
Proof.
  apply (monotone_search_finds_largest (job_probe (threshold_spine 73))
           (has_document 1) 73 (threshold_probe_classifies 73) ready_world).
  exact ready_world_has_document.
Defined.

(** ** What a reported scale stands for *)

Lemma bisect_result_fitted (probe : Z -> M bool) (fuel : nat) :
  forall (left right ok_value ok' : Z) (w w' : World),
    bisect probe fuel left right ok_value w = Ok ok' w' ->
    ok' = ok_value \/ exists wa wb, probe ok' wa = Ok true wb.
Proof.
  induction fuel as [|fuel IH]; intros left right ok_value ok' w w' E.
  - simpl in E. destruct (left <=? right); [discriminate|].
    injection E as <- _. now left.
  - destruct (Z_lt_le_dec right left) as [Hlt|Hle].
    + rewrite bisect_done in E by assumption. injection E as <- _. now left.
    + rewrite bisect_step in E by assumption. unfold bind in E.
      destruct (probe (next_middle left right) w) as [fits w1|e w1|] eqn:Ep;
        try discriminate.
      destruct fits.
      * apply IH in E. destruct E as [->|E]; [|now right].
        right. eauto.
      * now apply IH in E.
Qed.

(** X7: whatever the probe does, a scale the search reports as found is a
    scale at which some probe call answered [True], and it is 100 only on
    the fast path; a failure is reported only after the full-scale probe
    answered [False], and then with the scale left at 100. *)
Theorem reported_scale_was_probed_fitting (probe : Z -> M bool)
    (failed : bool) (export_scale : Z) (w w' : World) :
  scale_search probe w = Ok (failed, export_scale) w' ->
  (failed = false ->
   (exists wa wb, probe export_scale wa = Ok true wb) /\
   (export_scale = 100 -> probe 100 w = Ok true w')) /\
  (failed = true ->
   export_scale = 100 /\ exists w1, probe 100 w = Ok false w1).
Proof.
  unfold scale_search, bind. intros E.
  destruct (probe 100 w) as [fits w1|e w1|] eqn:E1; try discriminate.
  destruct fits; cbn [negb] in E; cbv beta iota in E.
  - injection E as <- <- <-. split; [|discriminate].
    intros _. split; [eauto | reflexivity].
  - destruct (bisect probe (loop_fuel 10 100) 10 100 100 w1)
      as [ok w2|e w2|] eqn:EB; try discriminate.
    destruct (ok =? 100) eqn:Eok; cbn [negb] in E; cbv beta iota in E.
    + injection E as <- <- <-. split; [discriminate|].
      intros _. split; [reflexivity | eauto].
    + apply Z.eqb_neq in Eok.
      destruct (probe ok w2) as [b w3|e w3|]; try discriminate.
      injection E as <- <- <-. split; [|discriminate].
      intros _. split; [|congruence].
      apply bisect_result_fitted in EB. destruct EB as [->|EB];
        [congruence | exact EB].
Qed.

Lemma reported_scale_was_probed_fitting_witness :
  exists w',
    ((false = false ->
      (exists wa wb, job_probe (threshold_spine 42) 42 wa = Ok true wb) /\
      (42 = 100 -> job_probe (threshold_spine 42) 100 ready_world = Ok true w')) /\
     (false = true ->
      42 = 100 /\
      exists w1, job_probe (threshold_spine 42) 100 ready_world = Ok false w1)).
Proof.
  eexists.
  apply (reported_scale_was_probed_fitting (job_probe (threshold_spine 42))
           false 42 ready_world).
  vm_compute. reflexivity.
Defined.

(** ** How many times the renderer is started *)

Section ProbeCount.

Variable probe : Z -> M bool.
Hypothesis probe_logs : logs_probe probe.

(** Each probe halves the number of candidates left: with fewer than
    [2 ^ k] even values between the bounds the loop probes at most [k]
    times. *)
Lemma bisect_count (fuel : nat) :
  forall (k : nat) (left right ok_value : Z) (w : World),
    Z.even left = true -> Z.even right = true ->
    (loop_fuel left right <= fuel)%nat ->
    right - left + 2 < 2 * 2 ^ Z.of_nat k ->
    match bisect probe fuel left right ok_value w with
    | Ok _ w' | Raised _ w' =>
        exists ss, extends w w' ss /\ (List.length ss <= k)%nat
    | OutOfFuel => False
    end.
Proof.
  induction fuel as [|fuel IH]; intros k left right ok_value w Hl Hr Hf Hk.
  - assert (right < left) as Hlt by (unfold loop_fuel in Hf; lia).
    rewrite bisect_done by assumption.
    exists []. split; [apply extends_refl | simpl; lia].
  - destruct (Z_lt_le_dec right left) as [Hlt|Hle].
    + rewrite bisect_done by assumption.
      exists []. split; [apply extends_refl | simpl; lia].
    + destruct k as [|k]; [simpl in Hk; lia|].
      rewrite Nat2Z.inj_succ, Z.pow_succ_r in Hk by lia.
      rewrite bisect_step by assumption. unfold bind.
      destruct (next_middle_grid left right Hl Hr Hle) as [Hm Hb].
      pose proof (next_middle_near left right) as Hn.
      set (m := next_middle left right) in *.
      destruct (even_step m Hm) as [Hup Hdown].
      destruct (even_double _ Hl) as [la Hla].
      destruct (even_double _ Hr) as [rb Hrb].
      assert ((left + right) / 2 = la + rb) as Hmid
        by (subst left right; replace (2 * la + 2 * rb) with ((la + rb) * 2) by lia;
            apply Z.div_mul; lia).
      pose proof (probe_logs m w) as Hp.
      destruct (probe m w) as [fits w1|e w1|]; [| |contradiction].
      * destruct fits.
        -- specialize (IH k (m + 2) right m w1 Hup Hr
                         (loop_fuel_up _ _ _ _ (proj1 Hb) Hf) ltac:(lia)).
           destruct (bisect probe fuel (m + 2) right m w1) as [ok' w2|e w2|];
             [| |contradiction];
             destruct IH as (ss & He & Hlen); exists ([m] ++ ss);
             (split; [eapply extends_trans; eauto | simpl; lia]).
        -- specialize (IH k left (m - 2) ok_value w1 Hl Hdown
                         (loop_fuel_down _ _ _ _ Hle (proj2 Hb) Hf) ltac:(lia)).
           destruct (bisect probe fuel left (m - 2) ok_value w1)
             as [ok' w2|e w2|]; [| |contradiction];
             destruct IH as (ss & He & Hlen); exists ([m] ++ ss);
             (split; [eapply extends_trans; eauto | simpl; lia]).
      * destruct Hp as [Hp|Hp]; [exists [] | exists [m]];
          (split; [assumption | simpl; lia]).
Qed.

Lemma scale_search_count (w : World) :
  match scale_search probe w with
  | Ok _ w' | Raised _ w' =>
      exists ss, extends w w' ss /\ (List.length ss <= 8)%nat
  | OutOfFuel => False
  end.
Proof.
  unfold scale_search, bind.
  pose proof (probe_logs 100 w) as H1.
  destruct (probe 100 w) as [fits w1|e w1|]; [| |contradiction].
  - destruct fits; cbn [negb]; cbv beta iota.
    + exists [100]. split; [assumption | simpl; lia].
    + pose proof (bisect_count (loop_fuel 10 100) 6 10 100 100 w1
                    eq_refl eq_refl (le_n _) ltac:(vm_compute; reflexivity)) as HB.
      destruct (bisect probe (loop_fuel 10 100) 10 100 100 w1)
        as [ok w2|e w2|]; [| |contradiction];
        destruct HB as (ss & He & Hlen);
        pose proof (extends_trans _ _ _ _ _ H1 He) as H12.
      * destruct (ok =? 100); cbn [negb]; cbv beta iota.
        -- exists ([100] ++ ss). split; [assumption | simpl; lia].
        -- pose proof (probe_logs ok w2) as H3.
           destruct (probe ok w2) as [b w3|e w3|]; [| |contradiction].
           ++ exists (([100] ++ ss) ++ [ok]).
              split; [eapply extends_trans; eauto|].
              rewrite length_app. simpl. lia.
           ++ destruct H3 as [H3|H3];
                [exists (([100] ++ ss) ++ []) | exists (([100] ++ ss) ++ [ok])];
                (split; [eapply extends_trans; eauto|]);
                rewrite length_app; simpl; lia.
      * exists ([100] ++ ss). split; [assumption | simpl; lia].
  - destruct H1 as [H1|H1]; [exists [] | exists [100]];
      (split; [assumption | simpl; lia]).
Qed.

End ProbeCount.

(** X8: whatever the renderer answers, one job starts it at most eight
    times: the full-scale probe, at most six probes of the loop and the
    re-confirmation. *)
Theorem at_most_eight_invocations (H : Host) (spine_exec : string)
    (export_json : option ExportJson) (spine_file : string)
    (output base_path : option string) (w : World) :
  match world_of
          (export_spine H spine_exec export_json spine_file output base_path w)
  with
  | Some w' =>
      (List.length (runs w) <= List.length (runs w')
       <= List.length (runs w) + 8)%nat
  | None => False
  end.
Proof.
  unfold export_spine, bind.
  pose proof (setup_spec H export_json spine_file output w) as HS.
  destruct (setup H export_json spine_file output w) as [[t o] w1|e w1|];
    [| |contradiction].
  - destruct HS as (_ & HR & _).
    pose proof (scale_search_count _
                  (try_export_logs H t o spine_file
                     (mkParams spine_exec spine_file o t) eq_refl) w1) as HT.
    cbv beta iota.
    destruct (scale_search _ w1) as [[failed scale] w2|e w2|];
      [| |contradiction]; destruct HT as (ss & [HP _] & Hlen);
      apply probes_length in HP; rewrite HR in HP.
    + match goal with
      | |- context [report ?a ?b ?c ?d ?e w2] =>
          pose proof (report_spec a b c d e w2) as HRp;
          destruct (report a b c d e w2) as [u w3|e3 w3|]
      end; [| |contradiction].
      * destruct HRp as [R3 _]. unfold rmtree.
        destruct (fs_exists t (tmp_fs w3)); simpl; rewrite ?R3; lia.
      * subst w3. simpl. lia.
    + simpl. lia.
  - destruct HS as [HR _]. simpl. rewrite HR. lia.
Qed.

(** The bound is reached: a renderer that fits at 10 percent only. *)
Example eight_invocations_reached :
  exists w',
    run_job (threshold_spine 10) = Ok tt w' /\
    probes_of w' =
      [Some 100; Some 56; Some 32; Some 20; Some 14; Some 12; Some 10; Some 10].
Proof. eexists. split; vm_compute; reflexivity. Qed.

(** ** What a job leaves alone, and what it prints *)

Section Frame.

Variable probe : Z -> M bool.
Variable R : World -> World -> Prop.

Hypothesis R_refl : forall w, R w w.
Hypothesis R_trans : forall a b c, R a b -> R b c -> R a c.
Hypothesis probe_R :
  forall s w,
    match probe s w with
    | Ok _ w' | Raised _ w' => R w w'
    | OutOfFuel => True
    end.

(** Any reflexive and transitive relation every probe call respects is
    respected by the loop and by the search. *)
Lemma bisect_frame (fuel : nat) :
  forall (left right ok_value : Z) (w : World),
    match bisect probe fuel left right ok_value w with
    | Ok _ w' | Raised _ w' => R w w'
    | OutOfFuel => True
    end.
Proof.
  induction fuel as [|fuel IH]; intros left right ok_value w.
  - simpl. destruct (left <=? right); [exact I | apply R_refl].
  - destruct (Z_lt_le_dec right left) as [Hlt|Hle].
    + rewrite bisect_done by assumption. apply R_refl.
    + rewrite bisect_step by assumption. unfold bind.
      pose proof (probe_R (next_middle left right) w) as Hp.
      destruct (probe (next_middle left right) w) as [fits w1|e w1|];
        [|assumption|exact I].
      destruct fits.
      * specialize (IH (next_middle left right + 2) right
                       (next_middle left right) w1).
        destruct (bisect probe fuel _ _ _ w1); eauto.
      * specialize (IH left (next_middle left right - 2) ok_value w1).
        destruct (bisect probe fuel _ _ _ w1); eauto.
Qed.

Lemma scale_search_frame (w : World) :
  match scale_search probe w with
  | Ok _ w' | Raised _ w' => R w w'
  | OutOfFuel => True
  end.
Proof.
  unfold scale_search, bind.
  pose proof (probe_R 100 w) as H1.
  destruct (probe 100 w) as [fits w1|e w1|]; [|assumption|exact I].
  destruct fits; cbn [negb]; cbv beta iota; [assumption|].
  pose proof (bisect_frame (loop_fuel 10 100) 10 100 100 w1) as HB.
  destruct (bisect probe (loop_fuel 10 100) 10 100 100 w1)
    as [ok w2|e w2|]; [| |exact I].
  - assert (R w w2) as H12 by (eapply R_trans; eassumption).
    destruct (negb (ok =? 100)); cbv beta iota; [|exact H12].
    pose proof (probe_R ok w2) as H3.
    destruct (probe ok w2) as [b w3|e w3|]; [| |exact I];
      eapply R_trans; eassumption.
  - eapply R_trans; eassumption.
Qed.

End Frame.

Lemma others_kept_refl (t : nat) (w : World) : others_kept t w w.
Proof. intros d _. split; reflexivity. Qed.

Lemma others_kept_trans (t : nat) (a b c : World) :
  others_kept t a b -> others_kept t b c -> others_kept t a c.
Proof.
  intros Hab Hbc d Hd.
  destruct (Hab d Hd) as [A1 A2], (Hbc d Hd) as [B1 B2]. split; congruence.
Qed.

Lemma fs_exists_write_any (d t : nat) (c : ExportJson) (fs : list (nat * option ExportJson)) :
  fs_exists d (fs_write t c fs) = fs_exists d fs.
Proof. apply fs_exists_write. Qed.

Lemma try_export_others (H : Host) (t : nat) (s : Z) (out f : string)
    (prm : Params) (w : World) :
  match try_export H t s out f prm w with
  | Ok _ w' | Raised _ w' => others_kept t w w'
  | OutOfFuel => True
  end.
Proof.
  destruct (modify_export_json_cases t f out s w) as [[e E]|[w1 E]].
  - unfold try_export, bind. rewrite E. apply others_kept_refl.
  - rewrite (try_export_run H _ _ _ _ _ _ _ E).
    apply modify_export_json_ok in E. destruct E as [_ ->].
    assert (forall tl,
               tmp_fs tl = fs_write t (Document (mkConfig f out [s])) (tmp_fs w) ->
               others_kept t w tl) as Hk.
    { intros tl Htl d Hd. rewrite Htl. split;
        [now apply fs_read_write_other | apply fs_exists_write]. }
    destruct (spine H prm _) as [rc stdout files|rc files|]; [| |now apply Hk];
      cbv zeta; (destruct (rc =? 0); [now apply Hk|]).
    + destruct (contains misfit_signature stdout); now apply Hk.
    + now apply Hk.
Qed.

Lemma printed_errors_refl (w : World) : printed_errors w w.
Proof. exists []. split; [now rewrite app_nil_r | constructor]. Qed.

Lemma printed_errors_trans (a b c : World) :
  printed_errors a b -> printed_errors b c -> printed_errors a c.
Proof.
  intros (l1 & E1 & F1) (l2 & E2 & F2). exists (l1 ++ l2).
  split; [now rewrite E2, E1, app_assoc | now apply Forall_app].
Qed.

Lemma printed_errors_same (w w' : World) :
  console w' = console w -> printed_errors w w'.
Proof. intros E. exists []. split; [now rewrite app_nil_r | constructor]. Qed.

Lemma try_export_prints_errors (H : Host) (t : nat) (s : Z) (out f : string)
    (prm : Params) (w : World) :
  match try_export H t s out f prm w with
  | Ok _ w' | Raised _ w' => printed_errors w w'
  | OutOfFuel => True
  end.
Proof.
  destruct (modify_export_json_cases t f out s w) as [[e E]|[w1 E]].
  - unfold try_export, bind. rewrite E. apply printed_errors_refl.
  - rewrite (try_export_run H _ _ _ _ _ _ _ E).
    apply modify_export_json_ok in E. destruct E as [_ ->].
    destruct (spine H prm _) as [rc stdout files|rc files|];
      [| |now apply printed_errors_same];
      cbv zeta; (destruct (rc =? 0); [now apply printed_errors_same|]).
    + destruct (contains misfit_signature stdout);
        [now apply printed_errors_same|].
      exists [ErrorWhileExporting f s stdout].
      split; [reflexivity | repeat constructor].
    + now apply printed_errors_same.
Qed.

Lemma setup_others (H : Host) (export_json : option ExportJson) (spine_file : string)
    (output : option string) (w : World) :
  match setup H export_json spine_file output w with
  | Ok _ w1 | Raised _ w1 => others_kept (fresh_dir (tmp_fs w)) w w1
  | OutOfFuel => True
  end.
Proof.
  unfold setup, bind, mkdtemp, print, ensure_output_dir, copyfile, ret.
  set (t := fresh_dir (tmp_fs w)). clearbody t.
  assert (forall d, d <> t -> Nat.eqb d t = false) as Hne
    by (intros d Hd; now apply Nat.eqb_neq).
  destruct (out_dir w) eqn:Eo, export_json; simpl; rewrite ?Eo; simpl;
    try match goal with
        | |- context [makedirs ?h ?a ?b] => destruct (makedirs h a b)
        end;
    simpl; rewrite ?Nat.eqb_refl; simpl; rewrite ?Nat.eqb_refl; simpl;
    intros d Hd; unfold fs_exists; simpl; rewrite ?Nat.eqb_refl; simpl;
    rewrite (Hne d Hd); simpl; auto.
Qed.

Lemma fs_read_remove_other (d t : nat) (fs : list (nat * option ExportJson)) :
  d <> t -> fs_read d (fs_remove t fs) = fs_read d fs.
Proof.
  intros Hne. unfold fs_remove.
  induction fs as [|[d' c'] fs IH]; simpl; [reflexivity|].
  destruct (Nat.eqb t d') eqn:Et; simpl.
  - apply Nat.eqb_eq in Et. subst d'.
    apply Nat.eqb_neq in Hne. now rewrite Hne.
  - destruct (Nat.eqb d d'); [reflexivity | exact IH].
Qed.

Lemma fs_exists_remove_other (d t : nat) (fs : list (nat * option ExportJson)) :
  d <> t -> fs_exists d (fs_remove t fs) = fs_exists d fs.
Proof.
  intros Hne. unfold fs_exists, fs_remove.
  induction fs as [|[d' c'] fs IH]; simpl; [reflexivity|].
  destruct (Nat.eqb t d') eqn:Et; simpl.
  - apply Nat.eqb_eq in Et. subst d'.
    apply Nat.eqb_neq in Hne. now rewrite Hne.
  - now rewrite IH.
Qed.

Lemma export_spine_others (H : Host) (spine_exec : string)
    (export_json : option ExportJson) (spine_file : string)
    (output base_path : option string) (w : World) :
  match export_spine H spine_exec export_json spine_file output base_path w with
  | Ok _ w' | Raised _ w' => others_kept (fresh_dir (tmp_fs w)) w w'
  | OutOfFuel => True
  end.
Proof.
  unfold export_spine, bind.
  pose proof (setup_spec H export_json spine_file output w) as HS.
  pose proof (setup_others H export_json spine_file output w) as HO.
  destruct (setup H export_json spine_file output w) as [[t o] w1|e w1|];
    [|assumption|exact I].
  destruct HS as (Ht & _). rewrite <- Ht in *. cbv beta iota.
  pose proof (scale_search_frame _ (others_kept t)
                (others_kept_refl t) (others_kept_trans t)
                (fun s w0 => try_export_others H t s o spine_file
                               (mkParams spine_exec spine_file o t) w0) w1) as HT.
  cbv beta in HT.
  destruct (scale_search _ w1) as [[failed scale] w2|e w2|]; [| |exact I].
  - assert (others_kept t w w2) as H2 by (eapply others_kept_trans; eassumption).
    match goal with
    | |- context [report ?a ?b ?c ?d ?e w2] =>
        pose proof (report_spec a b c d e w2) as HRp;
        destruct (report a b c d e w2) as [u w3|e3 w3|]
    end; [| |exact I].
    + destruct HRp as [_ T3]. unfold rmtree.
      destruct (fs_exists t (tmp_fs w3)).
      * intros d Hd. cbn [tmp_fs set_tmp_fs]. rewrite T3.
        rewrite fs_read_remove_other, fs_exists_remove_other by assumption.
        now apply H2.
      * intros d Hd. rewrite T3. now apply H2.
    + now subst w3.
  - eapply others_kept_trans; eassumption.
Qed.

(** X9: a job leaves the workspaces of other jobs alone: every temporary
    directory that existed before [export_spine] still exists afterwards,
    with the same export.json, whether the job returned or raised. *)
Theorem other_workspaces_untouched (H : Host) (spine_exec : string)
    (export_json : option ExportJson) (spine_file : string)
    (output base_path : option string) (w : World) (d : nat) :
  fs_exists d (tmp_fs w) = true ->
  match world_of
          (export_spine H spine_exec export_json spine_file output base_path w)
  with
  | Some w' =>
      fs_exists d (tmp_fs w') = true /\
      fs_read d (tmp_fs w') = fs_read d (tmp_fs w)
  | None => False
  end.
Proof.
  intros Hd.
  assert (d <> fresh_dir (tmp_fs w)) as Hne
    by (intros ->; rewrite fresh_dir_new in Hd; discriminate).
  pose proof (export_spine_others H spine_exec export_json spine_file
                output base_path w) as HO.
  pose proof (export_spine_outcome H spine_exec export_json spine_file
                output base_path w) as HT.
  destruct (export_spine _ _ _ _ _ _ w) as [u w'|e w'|]; simpl;
    [| |contradiction]; destruct (HO d Hne) as [Hr He];
    (split; [congruence | assumption]).
Qed.

Lemma other_workspaces_untouched_witness :
  match world_of
          (export_spine (host_of (threshold_spine 42)) "Spine" (Some template)
             "hero.spine" None None busy_world)
  with
  | Some w' =>
      fs_exists 7 (tmp_fs w') = true /\
      fs_read 7 (tmp_fs w') = fs_read 7 (tmp_fs busy_world)
  | None => False
  end.
Proof.
  apply (other_workspaces_untouched (host_of (threshold_spine 42)) "Spine"
           (Some template) "hero.spine" None None busy_world 7).
  reflexivity.
Defined.

Lemma report_console (H : Host) (failed : bool) (export_scale : Z)
    (spine_file output_path : string) (w : World) :
  match report H failed export_scale spine_file output_path w with
  | Ok _ w' =>
      exists final, console w' = console w ++ [final] /\ is_result_line final
  | Raised _ w' => w' = w
  | OutOfFuel => False
  end.
Proof.
  unfold report, bind, listdir, print, raise.
  destruct failed; [eexists; split; [reflexivity | exact I]|].
  destruct (out_dir w) as [files|]; [|reflexivity].
  destruct (png_files_of files) as [|png rest]; [reflexivity|].
  destruct (get_png_resolution H w (path_join output_path png)) as [[? ?]|];
    [|reflexivity].
  eexists; split; [reflexivity | exact I].
Qed.

(** X10: what one job prints, in order: its [Processing] line, then only
    error lines of probes, then, exactly when [export_spine] returns, one
    result line (success or failure) as the last line.  A job that ends by
    an exception prints no result line. *)
Theorem job_console_shape (H : Host) (spine_exec : string)
    (export_json : option ExportJson) (spine_file : string)
    (output base_path : option string) (w : World) :
  let first := Processing (basename H spine_file) (fresh_dir (tmp_fs w)) in
  match export_spine H spine_exec export_json spine_file output base_path w with
  | Ok _ w' =>
      exists errors final,
        console w' = console w ++ first :: errors ++ [final] /\
        Forall is_error_line errors /\ is_result_line final
  | Raised _ w' =>
      exists errors,
        console w' = console w ++ first :: errors /\
        Forall is_error_line errors
  | OutOfFuel => False
  end.
Proof.
  intros first.
  unfold export_spine, bind.
  pose proof (setup_spec H export_json spine_file output w) as HS.
  destruct (setup H export_json spine_file output w) as [[t o] w1|e w1|] eqn:Es;
    [| |contradiction].
  - destruct HS as (Ht & _ & HE & Hc). rewrite Ht in Hc. fold first in Hc.
    cbv beta iota.
    pose proof (scale_search_frame _ printed_errors
                  printed_errors_refl printed_errors_trans
                  (fun s w0 => try_export_prints_errors H t s o spine_file
                                 (mkParams spine_exec spine_file o t) w0) w1) as HT.
    pose proof (scale_search_trace _ w1
                  (try_export_logs H t o spine_file
                     (mkParams spine_exec spine_file o t) eq_refl)) as HD.
    cbv beta in HT, HD.
    destruct (scale_search _ w1) as [[failed scale] w2|e w2|];
      [| |contradiction].
    + destruct HT as (errors & Ec & Hall).
      destruct HD as (ss & [_ HD] & _).
      match goal with
      | |- context [report ?a ?b ?c ?d ?e w2] =>
          pose proof (report_console a b c d e w2) as HRp;
          pose proof (report_spec a b c d e w2) as HRs;
          destruct (report a b c d e w2) as [u w3|e3 w3|]
      end; [| |contradiction].
      * destruct HRp as (final & Ef & Hfin). destruct HRs as [_ T3].
        unfold rmtree. rewrite T3, (fs_exists_same_dirs t _ _ HD), HE.
        exists errors, final. cbn [console set_tmp_fs].
        rewrite Ef, Ec, Hc. rewrite <- !app_assoc. auto.
      * subst w3. exists errors. rewrite Ec, Hc, <- app_assoc. auto.
    + destruct HT as (errors & Ec & Hall).
      exists errors. rewrite Ec, Hc, <- app_assoc. auto.
  - exists []. unfold setup, bind, mkdtemp, print, ensure_output_dir, copyfile,
      ret in Es.
    fold first in Es.
    destruct (out_dir _), export_json; simpl in Es;
      repeat match type of Es with
             | context [if ?b then _ else _] => destruct b
             end;
      try discriminate; injection Es as _ <-; simpl; auto.
Qed.

(** ** Jobs that cannot get going, and jobs that find nothing *)

Lemma setup_copies (H : Host) (x : ExportJson) (spine_file : string)
    (output : option string) (w w1 : World) (t : nat) (o : string) :
  setup H (Some x) spine_file output w = Ok (t, o) w1 ->
  t = fresh_dir (tmp_fs w) /\
  fs_read t (tmp_fs w1) = Some x /\
  runs w1 = runs w /\
  console w1 = console w ++ [Processing (basename H spine_file) t].
Proof.
  unfold setup, bind, mkdtemp, print, ensure_output_dir, copyfile, ret.
  set (d := fresh_dir (tmp_fs w)). clearbody d.
  destruct (out_dir w) eqn:Eo; simpl; rewrite ?Eo; simpl;
    try match goal with
        | |- context [makedirs ?h ?a ?b] => destruct (makedirs h a b)
        end;
    simpl; rewrite ?Nat.eqb_refl; simpl; rewrite ?Nat.eqb_refl; simpl;
    try discriminate;
    intros [= <- <- <-]; simpl; rewrite ?Nat.eqb_refl; auto.
Qed.

(** X11: without a readable export.json the job ends by an [OSError]
    before any probe (that of [os.makedirs] when the output directory is
    missing and cannot be created, that of [shutil.copyfile] otherwise):
    the renderer is never started, only the [Processing] line is printed,
    the new workspace stays behind, and the output directory is as it was
    or has just been created empty. *)
Theorem missing_configuration_aborts_job (H : Host) (spine_exec spine_file : string)
    (output base_path : option string) (w : World) :
  exists w',
    export_spine H spine_exec None spine_file output base_path w
      = Raised OSError w' /\
    runs w' = runs w /\
    console w' =
      console w ++ [Processing (basename H spine_file) (fresh_dir (tmp_fs w))] /\
    fs_exists (fresh_dir (tmp_fs w)) (tmp_fs w') = true /\
    (out_dir w' = out_dir w \/ (out_dir w = None /\ out_dir w' = Some [])).
Proof.
  unfold export_spine, setup, bind, mkdtemp, print, ensure_output_dir, copyfile.
  set (t := fresh_dir (tmp_fs w)). clearbody t.
  destruct (out_dir w) eqn:Eo; simpl; rewrite ?Eo; simpl;
    try match goal with
        | |- context [makedirs ?h ?a ?b] => destruct (makedirs h a b)
        end;
    simpl; eexists; (split; [reflexivity|]); simpl;
    unfold fs_exists; simpl; rewrite ?Nat.eqb_refl; auto 10.
Qed.

(** X12: when the workspace was set up with a well-formed export.json and
    the renderer can never be started, the job ends by the exception of
    its very first probe: one invocation, at full scale, is attempted,
    only the [Processing] line is printed and the workspace stays
    behind. *)
Theorem unlaunchable_renderer_aborts_job (H : Host) (spine_exec : string)
    (c : Config) (spine_file : string) (output base_path : option string)
    (w w1 : World) (t : nat) (o : string) :
  (forall p w0, spine H p w0 = SpawnFailed) ->
  setup H (Some (Document c)) spine_file output w = Ok (t, o) w1 ->
  exists w',
    export_spine H spine_exec (Some (Document c)) spine_file output base_path w
      = Raised OSError w' /\
    probes_of w' = probes_of w ++ [Some 100] /\
    console w' = console w ++ [Processing (basename H spine_file) t] /\
    fs_exists t (tmp_fs w') = true.
Proof.
  intros Hdead Es.
  destruct (setup_copies H _ _ _ _ _ _ _ Es) as (_ & Hr & HR & Hc).
  pose proof (setup_spec H (Some (Document c)) spine_file output w) as HS.
  rewrite Es in HS. destruct HS as (_ & _ & HE & _).
  set (prm := mkParams spine_exec spine_file o t).
  destruct (modify_export_json_cases t spine_file o 100 w1) as [[e Em]|[w2 Em]].
  - unfold modify_export_json in Em. rewrite Hr in Em. discriminate.
  - pose proof (try_export_run H t 100 o spine_file prm w1 w2 Em) as Et.
    rewrite Hdead in Et.
    pose proof (invoked_extends t 100 o spine_file prm w1 w2 eq_refl Em)
      as [HP HD].
    exists (invoked prm w2). split; [|split; [|split]].
    + unfold export_spine, bind. rewrite Es. cbv beta iota.
      unfold scale_search, bind. fold prm. rewrite Et. reflexivity.
    + rewrite HP. unfold probes_of. now rewrite HR.
    + apply modify_export_json_ok in Em. destruct Em as [_ ->]. exact Hc.
    + now rewrite (fs_exists_same_dirs t _ _ HD).
Qed.

Lemma unlaunchable_renderer_aborts_job_witness :
  exists w',
    run_job (fun _ _ => SpawnFailed) = Raised OSError w' /\
    probes_of w' = [Some 100] /\
    console w' = [Processing "hero.spine" 1] /\
    fs_exists 1 (tmp_fs w') = true.
Proof.
  apply (unlaunchable_renderer_aborts_job (host_of (fun _ _ => SpawnFailed))
           "Spine" (mkConfig "template.spine" "out" [1]) "hero.spine"
           (Some "out") None empty_world ready_world 1%nat "out");
    reflexivity.
Defined.

(** X15: when the workspace was set up with an export.json that is no
    JSON, or JSON without a "packAtlas" object, the job ends by the
    exception of its first [modify_export_json], before the renderer is
    started even once, with only the [Processing] line printed. *)
Theorem malformed_configuration_aborts_job (H : Host) (spine_exec : string)
    (x : ExportJson) (spine_file : string) (output base_path : option string)
    (w w1 : World) (t : nat) (o : string) :
  setup H (Some x) spine_file output w = Ok (t, o) w1 ->
  runs w1 = runs w /\
  console w1 = console w ++ [Processing (basename H spine_file) t] /\
  match x with
  | Document _ => True
  | NotJson =>
      export_spine H spine_exec (Some x) spine_file output base_path w
        = Raised JSONDecodeError w1
  | NoPackAtlas =>
      export_spine H spine_exec (Some x) spine_file output base_path w
        = Raised KeyError w1
  | WrongShape =>
      export_spine H spine_exec (Some x) spine_file output base_path w
        = Raised TypeError w1
  end.
Proof.
  intros Es.
  destruct (setup_copies H _ _ _ _ _ _ _ Es) as (_ & Hr & HR & Hc).
  split; [exact HR|]. split; [exact Hc|].
  destruct x; [exact I| | |];
    unfold export_spine, bind; rewrite Es; cbv beta iota;
    unfold scale_search, bind, try_export, bind, modify_export_json;
    rewrite Hr; reflexivity.
Qed.

Lemma malformed_configuration_aborts_job_witness :
  exists w1,
    runs w1 = runs empty_world /\
    console w1 = console empty_world ++ [Processing "hero.spine" 1] /\
    export_spine (host_of (threshold_spine 42)) "Spine" (Some NoPackAtlas)
      "hero.spine" (Some "out") None empty_world = Raised KeyError w1.
Proof.
  eexists.
  apply (malformed_configuration_aborts_job (host_of (threshold_spine 42))
           "Spine" NoPackAtlas "hero.spine" (Some "out") None empty_world _
           1%nat "out").
  vm_compute. reflexivity.
Defined.

(** X13: a search that found nothing always comes to a clean end: the job
    prints the failure line without looking at the output directory,
    removes its workspace and returns. *)
Theorem failed_search_reported_and_cleaned (H : Host) (spine_exec : string)
    (export_json : option ExportJson) (spine_file : string)
    (output base_path : option string) (w w1 w2 : World) (t : nat) (o : string)
    (export_scale : Z) :
  setup H export_json spine_file output w = Ok (t, o) w1 ->
  scale_search
    (fun s => try_export H t s o spine_file (mkParams spine_exec spine_file o t))
    w1 = Ok (true, export_scale) w2 ->
  exists w3,
    export_spine H spine_exec export_json spine_file output base_path w
      = Ok tt w3 /\
    console w3 =
      console w2 ++
      [Failed (match base_path with
               | Some b => relpath H spine_file b
               | None => spine_file
               end) o] /\
    out_dir w3 = out_dir w2 /\ runs w3 = runs w2 /\
    fs_exists t (tmp_fs w3) = false.
Proof.
  intros Es Esearch.
  pose proof (setup_spec H export_json spine_file output w) as HS.
  rewrite Es in HS. destruct HS as (_ & _ & HE & _).
  pose proof (scale_search_trace _ w1
                (try_export_logs H t o spine_file
                   (mkParams spine_exec spine_file o t) eq_refl)) as HD.
  cbv beta in HD. rewrite Esearch in HD. destruct HD as (ss & [_ HD] & _).
  eexists. split; [|split; [|split; [|split]]].
  - unfold export_spine, bind. rewrite Es. cbv beta iota.
    rewrite Esearch. cbv beta iota.
    unfold report, print, rmtree. cbn [tmp_fs add_line].
    rewrite (fs_exists_same_dirs t _ _ HD), HE. reflexivity.
  - reflexivity.
  - reflexivity.
  - reflexivity.
  - cbn [tmp_fs set_tmp_fs]. apply fs_exists_remove.
Qed.

Lemma failed_search_reported_and_cleaned_witness :
  exists w2 w3,
    scale_search (job_probe (fun _ _ => misfit)) ready_world = Ok (true, 100) w2 /\
    run_job (fun _ _ => misfit) = Ok tt w3 /\
    console w3 = console w2 ++ [Failed "hero.spine" "out"] /\
    out_dir w3 = out_dir w2 /\ runs w3 = runs w2 /\
    fs_exists 1 (tmp_fs w3) = false.
Proof.
  eexists.
  assert (scale_search (job_probe (fun _ _ => misfit)) ready_world
          = Ok (true, 100) ?[w2]) as Esearch by (vm_compute; reflexivity).
  destruct (failed_search_reported_and_cleaned (host_of (fun _ _ => misfit))
              "Spine" (Some template) "hero.spine" (Some "out") None
              empty_world ready_world _ 1%nat "out" 100 eq_refl Esearch)
    as (w3 & E3 & Hrest).
  exists w3. split; [exact Esearch|]. split; [exact E3 | exact Hrest].
Defined.

(** ** The success path after the loop *)

(** X14: when the loop ends with an [ok_value] other than 100 the search
    reports [failed = False] with that value whatever the re-confirmation
    probe returned.  The job then looks for the first PNG of the output
    directory: when there is none it ends by an [IndexError], when the
    file cannot be opened it ends by the exception of [Image.open] (in
    both cases with no line printed and the world as the re-confirmation
    left it), and otherwise it prints its success line with that value. *)
Theorem recorded_value_reported (H : Host) (spine_exec : string)
    (export_json : option ExportJson) (spine_file : string)
    (output base_path : option string) (w w1 w2 w3 w4 : World) (t : nat)
    (o : string) (ok_value : Z) (confirmed : bool) :
  let probe :=
    fun s => try_export H t s o spine_file (mkParams spine_exec spine_file o t) in
  let shown :=
    match base_path with
    | Some b => relpath H spine_file b
    | None => spine_file
    end in
  setup H export_json spine_file output w = Ok (t, o) w1 ->
  probe 100 w1 = Ok false w2 ->
  bisect probe (loop_fuel 10 100) 10 100 100 w2 = Ok ok_value w3 ->
  ok_value <> 100 ->
  probe ok_value w3 = Ok confirmed w4 ->
  scale_search probe w1 = Ok (false, ok_value) w4 /\
  (png_files_of (listing_of w4) = [] ->
   export_spine H spine_exec export_json spine_file output base_path w
     = Raised IndexError w4) /\
  (forall png rest,
      png_files_of (listing_of w4) = png :: rest ->
      get_png_resolution H w4 (path_join o png) = None ->
      export_spine H spine_exec export_json spine_file output base_path w
        = Raised UnidentifiedImageError w4) /\
  (forall png rest width height,
      png_files_of (listing_of w4) = png :: rest ->
      get_png_resolution H w4 (path_join o png) = Some (width, height) ->
      exists w5,
        export_spine H spine_exec export_json spine_file output base_path w
          = Ok tt w5 /\
        console w5 =
          console w4 ++ [ExportCompleted shown ok_value width height o]).
Proof.
  intros probe shown Hs H1 HB Hok Hc.
  assert (scale_search probe w1 = Ok (false, ok_value) w4) as Hsearch.
  { unfold scale_search, bind. rewrite H1. cbn [negb]. cbv beta iota.
    rewrite HB. apply Z.eqb_neq in Hok. rewrite Hok. cbn [negb]. cbv beta iota.
    rewrite Hc. reflexivity. }
  destruct (try_export_returned _ _ _ _ _ _ _ _ _ Hc) as (files & Ho & _).
  unfold listing_of. rewrite Ho.
  split; [assumption|].
  assert (export_spine H spine_exec export_json spine_file output base_path w
          = (report H false ok_value shown o ;;; rmtree t) w4) as Hrun.
  { unfold export_spine. unfold bind at 1. rewrite Hs. cbv beta iota.
    unfold bind at 1. unfold probe in Hsearch. rewrite Hsearch. reflexivity. }
  rewrite Hrun. unfold report, bind, listdir. rewrite Ho.
  split; [|split].
  - intros Hpng. rewrite Hpng. reflexivity.
  - intros png rest Hpng Eres. rewrite Hpng, Eres. reflexivity.
  - intros png rest width height Hpng Eres.
    pose proof (setup_spec H export_json spine_file output w) as HS.
    rewrite Hs in HS. destruct HS as (_ & _ & HE & _).
    pose proof (scale_search_trace probe w1
                  (try_export_logs H t o spine_file
                     (mkParams spine_exec spine_file o t) eq_refl)) as HT.
    rewrite Hsearch in HT. destruct HT as (ss & [_ HD] & _).
    exists (set_tmp_fs (fs_remove t (tmp_fs w4))
              (add_line (ExportCompleted shown ok_value width height o) w4)).
    split; [|reflexivity].
    rewrite Hpng, Eres. unfold print, rmtree. cbn [tmp_fs add_line].
    rewrite (fs_exists_same_dirs t _ _ HD), HE. reflexivity.
Qed.

Lemma recorded_value_reported_witness :
  exists w4,
    (scale_search (job_probe (scripted_spine empty_confirm_script)) ready_world
       = Ok (false, 42) w4 /\
     (png_files_of (listing_of w4) = [] ->
      run_job (scripted_spine empty_confirm_script) = Raised IndexError w4)) /\
    png_files_of (listing_of w4) = [] /\
    console w4 = [Processing "hero.spine" 1] /\
    fs_exists 1 (tmp_fs w4) = true.
Proof.
  eexists. split.
  - refine (let T :=
              recorded_value_reported
                (host_of (scripted_spine empty_confirm_script))
                "Spine" (Some template) "hero.spine" (Some "out") None
                empty_world ready_world _ _ _ 1%nat "out" 42 false
                _ _ _ _ _ in
            conj (proj1 T) (proj1 (proj2 T))).
    + vm_compute. reflexivity.
    + vm_compute. reflexivity.
    + vm_compute. reflexivity.
    + discriminate.
    + vm_compute. reflexivity.
  - repeat split; vm_compute; reflexivity.
Defined.

(** A job whose output directory is missing and cannot be created: it ends
    in [os.makedirs], with no output directory and no probe. *)
Example job_without_output_directory :
  exists w',
    export_spine (host_without_makedirs (threshold_spine 42)) "Spine"
      (Some template) "hero.spine" (Some "out") None empty_world
      = Raised OSError w' /\
    out_dir w' = None /\ runs w' = [] /\
    console w' = [Processing "hero.spine" 1] /\
    fs_exists 1 (tmp_fs w') = true.
Proof.
  eexists. split; [vm_compute; reflexivity|].
  repeat split.
Qed.
